(** * fpDSP: fixed-point arithmetic, binary angles and the sample buffer

    A shallow embedding of the macros of [DSP.h] and of [samples.cpp]
    (the circular [SampleBuffer], the setup and stop of the ADC stream and
    the conversion of a reading), with the machine arithmetic of C
    written out: every integer is a [Z], every conversion to a w-bit type
    reduces it explicitly. *)

From Stdlib Require Import ZArith Lia List Bool.
From stdpp Require Import base list.
Import ListNotations.

Local Open Scope Z_scope.

(** Linear arithmetic with division and remainder by constants. *)
Ltac zlia := Z.div_mod_to_equations; lia.

(** * Machine integers *)

Module CInt.

(** Conversion to an unsigned type of [w] bits: reduction modulo [2^w]. *)
Definition wrap_u (w x : Z) : Z := x mod 2 ^ w.

(** Conversion to a signed two's complement type of [w] bits (what gcc and
    avr-gcc do on a conversion that does not fit). *)
Definition wrap_s (w x : Z) : Z := (x + 2 ^ (w - 1)) mod 2 ^ w - 2 ^ (w - 1).

Definition uint8 : Z -> Z := wrap_u 8.
Definition uint16 : Z -> Z := wrap_u 16.
Definition uint32 : Z -> Z := wrap_u 32.
Definition int16 : Z -> Z := wrap_s 16.
Definition int32 : Z -> Z := wrap_s 32.

(** C's logical negation [!v] of an integer value. *)
Definition c_not (v : Z) : bool := v =? 0.

(** Widths of [int] on the targets of the library: the 8-bit AVR of
    [samples.cpp] (Arduino.h, the TCCR1A/ADMUX/ADCSRA registers) has a
    16-bit [int]; a desktop host has a 32-bit one. *)
Definition int_bits_avr : Z := 16.
Definition int_bits_host : Z := 32.

End CInt.
Import CInt.

(** * DSP.h *)

Module DSP.

Definition Q15_ZERO : Z := 0x0000.
Definition Q15_ONE : Z := 0x7FFF.

(** [typedef uint8_t BAM8; typedef uint16_t BAM16; typedef int16_t Q_15;] *)
Definition is_BAM8 (x : Z) : Prop := 0 <= x < 2 ^ 8.
Definition is_BAM16 (x : Z) : Prop := 0 <= x < 2 ^ 16.
Definition is_Q_15 (x : Z) : Prop := - 2 ^ 15 <= x < 2 ^ 15.

Definition BAM16_PI_RADIANS : Z := 0x8000.
Definition BAM16_0_DEGREES : Z := 0x0000.
Definition BAM16_270_DEGREES : Z := 0xC000.
Definition BAM16_180_DEGREES : Z := BAM16_PI_RADIANS.
Definition BAM16_90_DEGREES : Z := 0x4000.
Definition BAM16_60_DEGREES : Z := uint16 (0x10003 / 6).
Definition BAM16_45_DEGREES : Z := uint16 (BAM16_90_DEGREES / 2).
Definition BAM16_30_DEGREES : Z := uint16 (0x8003 / 6).

(** Sums and differences of two [BAM16] values stored back into a [BAM16]:
    the operands are promoted, the result is converted to [uint16_t]. *)
Definition BAM16_add (a b : Z) : Z := uint16 (a + b).
Definition BAM16_sub (a b : Z) : Z := uint16 (a - b).

(** [#define BAM16toBAM8(X) ((BAM8)((X)>>8))]: the promotion of a [BAM16]
    keeps its value, whatever the width of [int]. *)
Definition BAM16toBAM8 (X : Z) : Z := uint8 (Z.shiftr X 8).

(** [#define FREQUENCY_HZtoBAM16_PER_SAMPLE( HZ, SAMPLE_RATE )
       ((BAM16)(((uint32_t)(HZ) << 16)/(SAMPLE_RATE)))]:
    the shift is done on 32 unsigned bits, the division is the unsigned
    integer division of C.  A positive [SAMPLE_RATE] keeps its value under
    the usual arithmetic conversions. *)
Definition FREQUENCY_HZtoBAM16_PER_SAMPLE (HZ SAMPLE_RATE : Z) : Z :=
  uint16 (uint32 (Z.shiftl (uint32 HZ) 16) / SAMPLE_RATE).

(** [#define Q15_mult(A,B) ((((int32_t)(A))*((int32_t)(B)))>>15)]:
    a 32-bit signed product, shifted right arithmetically. *)
Definition Q15_mult (A B : Z) : Z :=
  Z.shiftr (int32 (int32 A * int32 B)) 15.

(** Modelled from the spec: Arduino's [constrain(amt, low, high)] macro,
    which Arduino.h supplies and src/ does not hold; the spec has
    saturation clamp its argument to the closed range between the two
    bounds. *)
Definition constrain (amt low high : Z) : Z :=
  if amt <? low then low else if high <? amt then high else amt.

(** [#define Q15_sat(X) constrain(X, -Q15_ONE, Q15_ONE)] *)
Definition Q15_sat (X : Z) : Z := constrain X (- Q15_ONE) Q15_ONE.

Section Target.

(** The width of [int] and [unsigned int] on the target. *)
Variable int_bits : Z.

Definition uint : Z -> Z := wrap_u int_bits.
Definition sint : Z -> Z := wrap_s int_bits.

(** [#define DEG2BAM16(X) ((BAM16)(((X)*BAM16_45_DEGREES)/45))] at an [X]
    of type [int].  [BAM16_45_DEGREES] is a [uint16_t]: where [int] has
    more than 16 bits it is promoted to [int] and the product and the
    quotient are signed; where [int] has 16 bits it is promoted to
    [unsigned int], [X] and [45] are converted to [unsigned int], and the
    product wraps at the width of [int]. *)
Definition DEG2BAM16 (X : Z) : Z :=
  if int_bits <=? 16
  then uint16 (uint (uint X * uint BAM16_45_DEGREES) / uint 45)
  else uint16 (Z.quot (sint (sint X * BAM16_45_DEGREES)) 45).

(** [#define BAM8toBAM16(X) ((BAM16)((X)<<8))]: a [BAM8] is promoted to
    [int] and the shift is done at the width of [int]; where the shifted
    value does not fit (a 16-bit [int], [X >= 128]) gcc keeps its low
    bits, which is what [sint] does. *)
Definition BAM8toBAM16 (X : Z) : Z := uint16 (sint (Z.shiftl X 8)).

(** The quadrant tests.  The masks are [unsigned int] constants, so the
    operand is converted to [unsigned int]. *)
Definition BAM16_Quad4 (X : Z) : bool := 0xC000 =? Z.land (uint X) 0xC000.
Definition BAM16_Quad3 (X : Z) : bool := 0x8000 =? Z.land (uint X) 0xC000.
Definition BAM16_Quad2 (X : Z) : bool := 0x4000 =? Z.land (uint X) 0xC000.
Definition BAM16_Quad1 (X : Z) : bool := 0x0000 =? Z.land (uint X) 0xC000.

Definition BAM16_Quad12 (X : Z) : bool := c_not (Z.land (uint X) 0x8000).
Definition BAM16_Quad13 (X : Z) : bool := c_not (Z.land (uint X) 0x4000).
Definition BAM16_Quad14 (X : Z) : bool := BAM16_Quad12 (uint (uint X + 0x4000)).
Definition BAM16_Quad23 (X : Z) : bool := BAM16_Quad12 (uint (uint X - 0x4000)).
Definition BAM16_Quad24 (X : Z) : bool := negb (BAM16_Quad13 X).
Definition BAM16_Quad34 (X : Z) : bool := negb (BAM16_Quad12 X).

End Target.

End DSP.

(** * samples.h, samples.cpp: the circular sample buffer *)

Module Samples.

Definition SAMPLE_BUFFER_SIZE : Z := 256.

(** [struct SampleBuffer { uint16_t buff[SAMPLE_BUFFER_SIZE];
                           uint8_t in; uint8_t out; }] *)
Record SampleBuffer : Type := mkSampleBuffer
  { buff : list Z;
    in_ : Z;
    out : Z }.

(** The states of the C type: an array of 256 slots and two 8-bit indices. *)
Definition wf (sb : SampleBuffer) : Prop :=
  Z.of_nat (length (buff sb)) = SAMPLE_BUFFER_SIZE /\
  0 <= in_ sb < 256 /\ 0 <= out sb < 256.

Definition SampleBuffer_init (sb : SampleBuffer) : SampleBuffer :=
  {| buff := buff sb; in_ := 0; out := 0 |}.

(** [uint8_t tmp = sb->in - sb->out;] the difference is computed on [int]
    and converted to [uint8_t]. *)
Definition SampleBuffer_size (sb : SampleBuffer) : Z :=
  uint8 (in_ sb - out sb).

(** [uint8_t tmp = ~sb->in + sb->out;] the complement is taken on the
    promoted [int]. *)
Definition SampleBuffer_free (sb : SampleBuffer) : Z :=
  uint8 (Z.lnot (in_ sb) + out sb).

Definition SampleBuffer_empty (sb : SampleBuffer) : bool :=
  in_ sb =? out sb.

Definition SampleBuffer_full (sb : SampleBuffer) : bool :=
  c_not (uint8 (Z.lnot (in_ sb) + out sb)).

(** [sb->buff[sb->in++] = sample;] with [sample] a [uint16_t] parameter. *)
Definition SampleBuffer_push (sb : SampleBuffer) (sample : Z) : SampleBuffer :=
  {| buff := <[Z.to_nat (in_ sb) := uint16 sample]> (buff sb);
     in_ := uint8 (in_ sb + 1);
     out := out sb |}.

(** [return sb->buff[sb->out++];] *)
Definition SampleBuffer_pop (sb : SampleBuffer) : Z * SampleBuffer :=
  (buff sb !!! Z.to_nat (out sb),
   {| buff := buff sb; in_ := in_ sb; out := uint8 (out sb + 1) |}).

(** [for (int i=0; i<count; ++i) *buf++ = SampleBuffer_pop(sb);]
    the list is what the loop writes to [buf[0]], [buf[1]], ...; each
    popped [uint16_t] is converted to [Q_15]. *)
Fixpoint pop_loop (n : nat) (sb : SampleBuffer) : list Z * SampleBuffer :=
  match n with
  | O => ([], sb)
  | S n' =>
      let (x, sb1) := SampleBuffer_pop sb in
      let (xs, sb2) := pop_loop n' sb1 in
      (int16 x :: xs, sb2)
  end.

(** The result is the returned count, the samples written to [buf] and the
    buffer afterwards. *)
Definition SampleBuffer_popAllOrNothing (sb : SampleBuffer) (count : Z)
  : Z * list Z * SampleBuffer :=
  if SampleBuffer_size sb <? count
  then (0, [], sb)
  else let (xs, sb') := pop_loop (Z.to_nat count) sb in (count, xs, sb').

(** [for (int i=0; i<count; ++i) SampleBuffer_push(sb, *buf++);]
    [buf] is the caller's array; it holds at least [count] samples
    (reading past its end is undefined in C). *)
Fixpoint push_loop (n : nat) (sb : SampleBuffer) (buf : list Z) : SampleBuffer :=
  match n with
  | O => sb
  | S n' => push_loop n' (SampleBuffer_push sb (hd 0 buf)) (tl buf)
  end.

Definition SampleBuffer_pushAllOrNothing (sb : SampleBuffer) (buf : list Z)
  (count : Z) : Z * SampleBuffer :=
  if SampleBuffer_free sb <? count
  then (0, sb)
  else (count, push_loop (Z.to_nat count) sb buf).

(** The stored samples, oldest first: the slots [out], [out+1], ... up to
    [in], the indices wrapping at 256. *)
Definition contents (sb : SampleBuffer) : list Z :=
  map (fun k : nat => buff sb !!! Z.to_nat (uint8 (out sb + Z.of_nat k)))
      (seq 0 (Z.to_nat (SampleBuffer_size sb))).

(** Sample states for the examples: a buffer holding 10, 20, 30 and one
    whose indices are stale. *)
Definition sb_three : SampleBuffer :=
  {| buff := [10; 20; 30] ++ repeat 0 253%nat; in_ := 3; out := 0 |}.

Definition sb_stale : SampleBuffer :=
  {| buff := repeat 7 256%nat; in_ := 5; out := 9 |}.

Definition q15_samples : list Z := [1; -2; 32767; -32768].

(** A full buffer: 255 samples between [out] and [in]. *)
Definition sb_full : SampleBuffer :=
  {| buff := repeat 7 256%nat; in_ := 4; out := 5 |}.

End Samples.

(** * samples.cpp: the ADC stream *)

Module ADC.

Definition PERIOD_US_8KHZ : Z := 125.
Definition PERIOD_US_6666HZ : Z := 150.
Definition PERIOD_US_5KHZ : Z := 200.
Definition PERIOD_US_4KHZ : Z := 250.
Definition PERIOD_US_3333HZ : Z := 300.
Definition PERIOD_US_2KHZ : Z := 500.

(** The constants of avr/io.h and pins_arduino.h that [samples.cpp] uses:
    the number of the first analog pin and the positions of the register
    bits.  They are not part of the sources and are taken as parameters. *)
Record IoDefs : Type := mkIoDefs
  { A0 : Z;
    CS11 : Z; WGM12 : Z; OCIE1B : Z;
    REFS0 : Z;
    ADTS2 : Z; ADTS0 : Z;
    ADEN : Z; ADIE : Z; ADIF : Z; ADATE : Z }.

(** Their values on the ATmega328P of the Arduino Uno. *)
Definition atmega328p : IoDefs :=
  {| A0 := 14;
     CS11 := 1; WGM12 := 3; OCIE1B := 2;
     REFS0 := 6;
     ADTS2 := 2; ADTS0 := 0;
     ADEN := 7; ADIE := 3; ADIF := 4; ADATE := 5 |}.

(** The registers of timer 1 and of the converter that the code writes,
    and the global interrupt flag. *)
Record Registers : Type := mkRegisters
  { TCCR1A : Z; TCCR1B : Z; TCNT1 : Z; TIMSK1 : Z;
    OCR1A : Z; OCR1B : Z;
    ADMUX : Z; ADCSRB : Z; ADCSRA : Z;
    interrupts_enabled : bool }.

(** Arduino's [#define bit(b) (1UL << (b))]. *)
Definition bit (b : Z) : Z := uint32 (Z.shiftl 1 b).

(** The chain of comparisons of [ADC_StreamSetup] that picks the value
    or-ed into the prescaler field of ADCSRA. *)
Definition prescaler_select (ticks : Z) : Z :=
  if 208 <? ticks then 7
  else if 104 <? ticks then 6
  else if 52 <? ticks then 5
  else if 26 <? ticks then 4
  else if 13 <? ticks then 3
  else if 7 <? ticks then 2
  else 1.

Section Target.

Variable io : IoDefs.
Variable int_bits : Z.

Let uint : Z -> Z := DSP.uint int_bits.
Let sint : Z -> Z := DSP.sint int_bits.

(** [uint16_t ticks = (sampleTime_us << 1) - 1;] *)
Definition ticks_of (sampleTime_us : Z) : Z :=
  uint16 (sint (sint (Z.shiftl sampleTime_us 1) - 1)).

(** [if (pin >= A0) pin -= A0;] *)
Definition channel_of (pin : Z) : Z :=
  if A0 io <=? pin then sint (pin - A0 io) else pin.

(** [void ADC_StreamSetup( int pin, int sampleTime_us)]: every register
    of the record is assigned, so the state before the call does not
    matter; the 8-bit registers keep the low byte of what is assigned. *)
Definition ADC_StreamSetup (pin sampleTime_us : Z) : Registers :=
  let ticks := ticks_of sampleTime_us in
  let pin := channel_of pin in
  let adcsra0 :=
    uint8 (Z.lor (Z.lor (bit (ADEN io)) (bit (ADIE io))) (bit (ADIF io))) in
  let adcsra1 := uint8 (Z.lor adcsra0 (prescaler_select ticks)) in
  {| TCCR1A := 0;
     TCCR1B := uint8 (Z.lor (bit (CS11 io)) (bit (WGM12 io)));
     TCNT1 := 0;
     TIMSK1 := uint8 (bit (OCIE1B io));
     OCR1A := ticks;
     OCR1B := ticks;
     ADMUX := uint8 (Z.lor (bit (REFS0 io)) (uint32 (Z.land pin 0x07)));
     ADCSRB := uint8 (Z.lor (bit (ADTS2 io)) (bit (ADTS0 io)));
     ADCSRA := uint8 (Z.lor adcsra1 (bit (ADATE io)));
     interrupts_enabled := true |}.

(** [void ADC_StreamStop()]:
    [TIMSK1 &= ~(bit (OCIE1B)); ADCSRA = 0;] *)
Definition ADC_StreamStop (r : Registers) : Registers :=
  {| TCCR1A := TCCR1A r; TCCR1B := TCCR1B r; TCNT1 := TCNT1 r;
     TIMSK1 := uint8 (Z.land (TIMSK1 r) (uint32 (Z.lnot (bit (OCIE1B io)))));
     OCR1A := OCR1A r; OCR1B := OCR1B r;
     ADMUX := ADMUX r; ADCSRB := ADCSRB r;
     ADCSRA := 0;
     interrupts_enabled := interrupts_enabled r |}.

(** [Q_15 ADC_readCurrentSample( void ) { return (ADC - 0x0200) << 4; }]
    at the value [adc] of the 16-bit data register: with a 16-bit [int]
    the register is promoted to [unsigned int] and the arithmetic wraps
    at 16 bits, with a wider [int] it is signed; the result is converted
    to [Q_15]. *)
Definition ADC_readCurrentSample (adc : Z) : Z :=
  if int_bits <=? 16
  then int16 (uint (Z.shiftl (uint (uint adc - uint 0x0200)) 4))
  else int16 (sint (Z.shiftl (sint (adc - 0x0200)) 4)).

End Target.

End ADC.

(** * Reference notions used in the statements *)

Module Ref.

(** The quotient [n / d] rounded to the nearest integer, halves upwards. *)
Definition round_div (n d : Z) : Z := (2 * n + d) / (2 * d).

(** [r] is an integer nearest to the rational [n / d]. *)
Definition nearest (n d r : Z) : Prop :=
  forall k : Z, Z.abs (r * d - n) <= Z.abs (k * d - n).

(** Exactly one of the booleans of a list is true. *)
Definition count_true (l : list bool) : nat :=
  fold_right (fun (b : bool) (n : nat) => if b then S n else n) 0%nat l.

Definition exactly_one (l : list bool) : Prop := count_true l = 1%nat.

End Ref.

(** * The definitions at work *)

Section Examples.
Import DSP Samples.

(** 250 Hz sampled at 1000 Hz is a quarter turn per sample. *)
Example FREQUENCY_250_1000 :
  FREQUENCY_HZtoBAM16_PER_SAMPLE 250 1000 = BAM16_90_DEGREES.
Proof. reflexivity. Qed.

Example Q15_mult_samples :
  Q15_mult 0x4000 0x4000 = 0x2000 /\ Q15_mult (-1) 1 = -1 /\
  Q15_mult (-32768) 32767 = -32767.
Proof. repeat split. Qed.

Example BAM16_constants :
  BAM16_45_DEGREES = 0x2000 /\ BAM16_60_DEGREES = 0x2AAB /\
  BAM16_30_DEGREES = 0x1555.
Proof. repeat split. Qed.

Example quadrant_borders :
  map (BAM16_Quad1 int_bits_avr) [0x0000; 0x3FFF; 0x4000; 0xFFFF]
  = [true; true; false; false] /\
  map (BAM16_Quad23 int_bits_avr) [0x3FFF; 0x4000; 0xBFFF; 0xC000]
  = [false; true; true; false] /\
  map (BAM16_Quad14 int_bits_host) [0x3FFF; 0x4000; 0xBFFF; 0xC000]
  = [true; false; false; true].
Proof. repeat split. Qed.

Example sb_three_contents :
  contents sb_three = [10; 20; 30] /\
  SampleBuffer_size sb_three = 3 /\ SampleBuffer_free sb_three = 252.
Proof. repeat split. Qed.

(** A push on a full buffer is refused, a pop of more than is stored too. *)
Example sb_three_refusals :
  SampleBuffer_popAllOrNothing sb_three 4 = (0, [], sb_three) /\
  SampleBuffer_pushAllOrNothing sb_three q15_samples 253 = (0, sb_three).
Proof. repeat split. Qed.

End Examples.

(** * Facts on machine integers *)

Section WrapFacts.

Lemma pow2_16_le (W : Z) : 16 <= W -> 2 ^ 16 <= 2 ^ W.
Proof. intros HW. apply Z.pow_le_mono_r; lia. Qed.

Lemma wrap_u_small (w x : Z) : 0 <= x < 2 ^ w -> wrap_u w x = x.
Proof. intros Hx. unfold wrap_u. apply Z.mod_small, Hx. Qed.

Lemma wrap_u_16_small (W x : Z) : 16 <= W -> 0 <= x < 2 ^ 16 -> wrap_u W x = x.
Proof.
  intros HW Hx. apply wrap_u_small.
  pose proof (pow2_16_le W HW). lia.
Qed.

Lemma wrap_s_small (w x : Z) :
  0 < w -> - 2 ^ (w - 1) <= x < 2 ^ (w - 1) -> wrap_s w x = x.
Proof.
  intros Hw Hx. unfold wrap_s.
  assert (E : 2 ^ w = 2 * 2 ^ (w - 1)).
  { rewrite <- Z.pow_succ_r by lia. f_equal. lia. }
  rewrite Z.mod_small; lia.
Qed.

(** Reducing to [W >= 16] bits first does not change the low 16 bits. *)
Lemma uint16_wrap_u (W y : Z) : 16 <= W -> uint16 (wrap_u W y) = uint16 y.
Proof.
  intros HW. unfold uint16, wrap_u.
  replace W with (16 + (W - 16)) by lia.
  rewrite Z.pow_add_r by lia.
  rewrite Z.rem_mul_r by lia.
  rewrite Z.mul_comm, Z.mod_add by lia.
  apply Z.mod_mod. lia.
Qed.

Lemma uint16_wrap_s (W y : Z) : 16 <= W -> uint16 (wrap_s W y) = uint16 y.
Proof.
  intros HW. unfold wrap_s.
  fold (wrap_u W (y + 2 ^ (W - 1))).
  unfold uint16 at 1. unfold wrap_u at 1.
  rewrite <- Zminus_mod_idemp_l.
  fold (wrap_u 16 (wrap_u W (y + 2 ^ (W - 1)))). fold uint16.
  rewrite uint16_wrap_u by exact HW.
  unfold uint16, wrap_u.
  rewrite Zminus_mod_idemp_l. f_equal. lia.
Qed.

Lemma testbit_wrap_u (W y n : Z) :
  n < W -> Z.testbit (wrap_u W y) n = Z.testbit y n.
Proof. intros Hn. unfold wrap_u. now apply Z.mod_pow2_bits_low. Qed.

Lemma testbit_div (y n : Z) :
  0 <= n -> Z.testbit y n = ((y / 2 ^ n) mod 2 =? 1).
Proof.
  intros Hn. pose proof (Z.testbit_spec' y n Hn) as E.
  destruct (Z.testbit y n); simpl in E; rewrite <- E; reflexivity.
Qed.

Lemma land_pow2 (a n : Z) :
  0 <= n -> Z.land a (2 ^ n) = if Z.testbit a n then 2 ^ n else 0.
Proof.
  intros Hn. apply Z.bits_inj'. intros m Hm.
  rewrite Z.land_spec, Z.pow2_bits_eqb by exact Hn.
  destruct (Z.eqb_spec n m) as [->|Hne].
  - rewrite andb_true_r.
    destruct (Z.testbit a m) eqn:E.
    + rewrite Z.pow2_bits_eqb, Z.eqb_refl by exact Hm. reflexivity.
    + now rewrite Z.bits_0.
  - rewrite andb_false_r.
    destruct (Z.testbit a n).
    + rewrite Z.pow2_bits_eqb by exact Hn.
      symmetry. now apply Z.eqb_neq.
    + now rewrite Z.bits_0.
Qed.

End WrapFacts.

(** * The frequency conversion *)

Section Frequency.
Import DSP Ref.

(** [round_div] does give an integer nearest to the quotient. *)
Lemma round_div_nearest (n d : Z) : 0 < d -> nearest n d (round_div n d).
Proof.
  intros Hd k. unfold round_div.
  assert (H : 2 * d * ((2 * n + d) / (2 * d)) <= 2 * n + d
              < 2 * d * ((2 * n + d) / (2 * d)) + 2 * d).
  { pose proof (Z.mul_div_le (2 * n + d) (2 * d)).
    pose proof (Z.mul_succ_div_gt (2 * n + d) (2 * d)). lia. }
  set (r := (2 * n + d) / (2 * d)) in *.
  destruct (Z.eq_dec k r) as [->|Hk]; [lia|].
  assert (k <= r - 1 \/ r + 1 <= k) as [Hlt|Hgt] by lia; nia.
Qed.

Lemma FREQUENCY_shift (HZ : Z) :
  0 <= HZ -> HZ * 2 ^ 16 < 2 ^ 32 ->
  uint32 (Z.shiftl (uint32 HZ) 16) = HZ * 2 ^ 16.
Proof.
  intros H0 H1. unfold uint32.
  rewrite (wrap_u_small 32 HZ) by lia.
  rewrite Z.shiftl_mul_pow2 by lia.
  apply wrap_u_small. lia.
Qed.

(** C1, as amended: for a frequency whose shift fits 32 unsigned bits and
    a positive sample rate, the increment is the quotient
    HZ * 2^16 / SAMPLE_RATE rounded down (the integer division truncates),
    reduced to 16 bits. *)
Theorem FREQUENCY_HZtoBAM16_PER_SAMPLE_floor (HZ SAMPLE_RATE : Z) :
  0 <= HZ -> HZ * 2 ^ 16 < 2 ^ 32 -> 0 < SAMPLE_RATE ->
  FREQUENCY_HZtoBAM16_PER_SAMPLE HZ SAMPLE_RATE
    = (HZ * 2 ^ 16 / SAMPLE_RATE) mod 2 ^ 16 /\
  (HZ * 2 ^ 16 / SAMPLE_RATE) * SAMPLE_RATE <= HZ * 2 ^ 16
    < (HZ * 2 ^ 16 / SAMPLE_RATE + 1) * SAMPLE_RATE.
Proof.
  intros H0 H1 HS. split.
  - unfold FREQUENCY_HZtoBAM16_PER_SAMPLE.
    now rewrite FREQUENCY_shift.
  - pose proof (Z.mul_div_le (HZ * 2 ^ 16) SAMPLE_RATE HS).
    pose proof (Z.mul_succ_div_gt (HZ * 2 ^ 16) SAMPLE_RATE HS). lia.
Qed.

Lemma FREQUENCY_HZtoBAM16_PER_SAMPLE_floor_witness :
  (0 <= 2 /\ 2 * 2 ^ 16 < 2 ^ 32 /\ 0 < 3) /\
  FREQUENCY_HZtoBAM16_PER_SAMPLE 2 3 = (2 * 2 ^ 16 / 3) mod 2 ^ 16 /\
  (2 * 2 ^ 16 / 3) * 3 <= 2 * 2 ^ 16 < (2 * 2 ^ 16 / 3 + 1) * 3.
Proof.
  split; [lia|].
  apply (FREQUENCY_HZtoBAM16_PER_SAMPLE_floor 2 3); lia.
Defined.

(** C1, as stated, fails at 2 Hz sampled at 3 Hz: the quotient is
    43690.67, the macro yields 43690, the nearest integer is 43691. *)
Lemma FREQUENCY_HZtoBAM16_PER_SAMPLE_not_rounded :
  (0 <= 2 /\ 2 * 2 ^ 16 < 2 ^ 32 /\ 0 < 3) /\
  FREQUENCY_HZtoBAM16_PER_SAMPLE 2 3 = 43690 /\
  uint16 (round_div (2 * 2 ^ 16) 3) = 43691 /\
  FREQUENCY_HZtoBAM16_PER_SAMPLE 2 3 <> uint16 (round_div (2 * 2 ^ 16) 3) /\
  ~ nearest (2 * 2 ^ 16) 3 (FREQUENCY_HZtoBAM16_PER_SAMPLE 2 3).
Proof.
  split; [lia|]. split; [reflexivity|]. split; [reflexivity|].
  split; [discriminate|].
  intros H. specialize (H 43691). vm_compute in H. now apply H.
Qed.

End Frequency.

(** * The Q15 product *)

Section Q15.
Import DSP.

(** C3: on Q_15 operands the product is the exact product divided by 2^15
    and rounded towards minus infinity, also when it is negative. *)
Theorem Q15_mult_floor (a b : Z) :
  is_Q_15 a -> is_Q_15 b ->
  Q15_mult a b = (a * b) / 2 ^ 15 /\
  2 ^ 15 * Q15_mult a b <= a * b < 2 ^ 15 * (Q15_mult a b + 1).
Proof.
  unfold is_Q_15. change (2 ^ 15) with 32768. intros Ha Hb.
  assert (E : Q15_mult a b = a * b / 32768).
  { unfold Q15_mult, int32.
    rewrite (wrap_s_small 32 a), (wrap_s_small 32 b)
      by (change (2 ^ (32 - 1)) with 2147483648; lia).
    rewrite wrap_s_small
      by (change (2 ^ (32 - 1)) with 2147483648; nia).
    now rewrite Z.shiftr_div_pow2 by lia. }
  rewrite E. split; [reflexivity|]. zlia.
Qed.

Lemma Q15_mult_floor_witness :
  (is_Q_15 (-1) /\ is_Q_15 1) /\
  Q15_mult (-1) 1 = (-1 * 1) / 2 ^ 15 /\
  2 ^ 15 * Q15_mult (-1) 1 <= -1 * 1 < 2 ^ 15 * (Q15_mult (-1) 1 + 1).
Proof.
  split; [unfold is_Q_15; lia|].
  apply (Q15_mult_floor (-1) 1); unfold is_Q_15; lia.
Defined.

(** C7: the square of Q15_ONE is one step below Q15_ONE, so it is within
    one least-significant step of it. *)
Theorem Q15_mult_ONE_ONE :
  Q15_mult Q15_ONE Q15_ONE = Q15_ONE - 1 /\
  Z.abs (Q15_mult Q15_ONE Q15_ONE - Q15_ONE) <= 1.
Proof. split; [reflexivity|]. vm_compute. discriminate. Qed.

End Q15.

(** * Binary angles *)

Section BAM.
Import DSP Ref.

Variable int_bits : Z.
Hypothesis int_bits_ge_16 : 16 <= int_bits.

Lemma uint_BAM16 (x : Z) : is_BAM16 x -> uint int_bits x = x.
Proof. intros Hx. now apply wrap_u_16_small. Qed.

Lemma BAM8toBAM16_mul (v : Z) : is_BAM8 v -> BAM8toBAM16 int_bits v = v * 256.
Proof.
  unfold is_BAM8. change (2 ^ 8) with 256. intros Hv.
  unfold BAM8toBAM16, sint.
  rewrite uint16_wrap_s by exact int_bits_ge_16.
  rewrite Z.shiftl_mul_pow2 by lia. change (2 ^ 8) with 256.
  apply wrap_u_small. change (2 ^ 16) with 65536. lia.
Qed.

Lemma BAM16toBAM8_div (w : Z) : is_BAM16 w -> BAM16toBAM8 w = w / 256.
Proof.
  unfold is_BAM16. change (2 ^ 16) with 65536. intros Hw.
  unfold BAM16toBAM8, uint8.
  rewrite Z.shiftr_div_pow2 by lia. change (2 ^ 8) with 256.
  apply wrap_u_small. change (2 ^ 8) with 256. zlia.
Qed.

(** C6: a BAM8 value maps to 256 times itself, a BAM16 value to its
    quotient by 256, and BAM8 -> BAM16 -> BAM8 is the identity. *)
Theorem BAM8_BAM16_conversions (v w : Z) :
  is_BAM8 v -> is_BAM16 w ->
  BAM8toBAM16 int_bits v = v * 256 /\
  BAM16toBAM8 w = w / 256 /\
  BAM16toBAM8 (BAM8toBAM16 int_bits v) = v.
Proof.
  intros Hv Hw. split; [now apply BAM8toBAM16_mul|].
  split; [now apply BAM16toBAM8_div|].
  rewrite BAM8toBAM16_mul by exact Hv.
  unfold is_BAM8 in Hv. change (2 ^ 8) with 256 in Hv.
  rewrite BAM16toBAM8_div
    by (unfold is_BAM16; change (2 ^ 16) with 65536; lia).
  zlia.
Qed.

(** The quadrant tests read bits 15 and 14 of the angle. *)
Lemma mask_C000 (u : Z) :
  Z.land u 0xC000 = Z.lor (Z.land u (2 ^ 15)) (Z.land u (2 ^ 14)).
Proof.
  change 0xC000 with (Z.lor (2 ^ 15) (2 ^ 14)).
  apply Z.land_lor_distr_r.
Qed.

Lemma quadrant_mask (x : Z) :
  is_BAM16 x -> Z.land (uint int_bits x) 0xC000 = 16384 * (x / 16384).
Proof.
  intros Hx. rewrite (uint_BAM16 x Hx), mask_C000.
  rewrite !land_pow2, !testbit_div by lia.
  unfold is_BAM16 in Hx.
  change (2 ^ 16) with 65536 in Hx.
  change (2 ^ 15) with 32768. change (2 ^ 14) with 16384.
  destruct (Z.eqb_spec ((x / 32768) mod 2) 1),
           (Z.eqb_spec ((x / 16384) mod 2) 1);
    match goal with
    | |- Z.lor ?a ?b = _ =>
        let v := eval vm_compute in (Z.lor a b) in change (Z.lor a b) with v
    end; zlia.
Qed.

Lemma BAM16_Quad12_testbit (y : Z) :
  BAM16_Quad12 int_bits y = negb (Z.testbit y 15).
Proof.
  unfold BAM16_Quad12, c_not. change 0x8000 with (2 ^ 15).
  rewrite land_pow2 by lia.
  unfold uint. rewrite testbit_wrap_u by lia.
  now destruct (Z.testbit y 15).
Qed.

Lemma BAM16_Quad13_testbit (y : Z) :
  BAM16_Quad13 int_bits y = negb (Z.testbit y 14).
Proof.
  unfold BAM16_Quad13, c_not. change 0x4000 with (2 ^ 14).
  rewrite land_pow2 by lia.
  unfold uint. rewrite testbit_wrap_u by lia.
  now destruct (Z.testbit y 14).
Qed.

Lemma BAM16_Quad14_testbit (x : Z) :
  is_BAM16 x -> BAM16_Quad14 int_bits x = negb (Z.testbit (x + 0x4000) 15).
Proof.
  intros Hx. unfold BAM16_Quad14.
  rewrite BAM16_Quad12_testbit, (uint_BAM16 x Hx).
  unfold uint. now rewrite testbit_wrap_u by lia.
Qed.

Lemma BAM16_Quad23_testbit (x : Z) :
  is_BAM16 x -> BAM16_Quad23 int_bits x = negb (Z.testbit (x - 0x4000) 15).
Proof.
  intros Hx. unfold BAM16_Quad23.
  rewrite BAM16_Quad12_testbit, (uint_BAM16 x Hx).
  unfold uint. now rewrite testbit_wrap_u by lia.
Qed.

(** All ten tests as arithmetic on the angle. *)
Ltac quad_arith Hx :=
  unfold BAM16_Quad34, BAM16_Quad24,
    BAM16_Quad1, BAM16_Quad2, BAM16_Quad3, BAM16_Quad4;
  rewrite ?(BAM16_Quad14_testbit _ Hx), ?(BAM16_Quad23_testbit _ Hx),
    ?BAM16_Quad12_testbit, ?BAM16_Quad13_testbit,
    ?(quadrant_mask _ Hx);
  rewrite ?testbit_div by lia;
  unfold is_BAM16 in Hx;
  change (2 ^ 16) with 65536 in Hx;
  change (2 ^ 15) with 32768; change (2 ^ 14) with 16384.

Ltac quad_cases :=
  repeat match goal with
         | |- context [?a =? ?b] => destruct (Z.eqb_spec a b)
         end;
  try match goal with
      | H : (_ =? _) = true |- _ => apply Z.eqb_eq in H
      end;
  cbn; try reflexivity; try discriminate; try zlia.

(** C4: each single-quadrant test holds exactly on its quarter of the
    16-bit range, exactly one of the four holds, and each union test is
    the disjunction of its two quadrants. *)
Theorem BAM16_quadrants (x : Z) :
  is_BAM16 x ->
  ((BAM16_Quad1 int_bits x = true <-> 0x0000 <= x < 0x4000) /\
   (BAM16_Quad2 int_bits x = true <-> 0x4000 <= x < 0x8000) /\
   (BAM16_Quad3 int_bits x = true <-> 0x8000 <= x < 0xC000) /\
   (BAM16_Quad4 int_bits x = true <-> 0xC000 <= x < 0x10000)) /\
  exactly_one [BAM16_Quad1 int_bits x; BAM16_Quad2 int_bits x;
               BAM16_Quad3 int_bits x; BAM16_Quad4 int_bits x] /\
  (BAM16_Quad12 int_bits x = BAM16_Quad1 int_bits x || BAM16_Quad2 int_bits x /\
   BAM16_Quad13 int_bits x = BAM16_Quad1 int_bits x || BAM16_Quad3 int_bits x /\
   BAM16_Quad14 int_bits x = BAM16_Quad1 int_bits x || BAM16_Quad4 int_bits x /\
   BAM16_Quad23 int_bits x = BAM16_Quad2 int_bits x || BAM16_Quad3 int_bits x /\
   BAM16_Quad24 int_bits x = BAM16_Quad2 int_bits x || BAM16_Quad4 int_bits x /\
   BAM16_Quad34 int_bits x = BAM16_Quad3 int_bits x || BAM16_Quad4 int_bits x).
Proof.
  intros Hx. unfold exactly_one, count_true.
  quad_arith Hx. repeat split; quad_cases.
Qed.

End BAM.

Lemma BAM8_BAM16_conversions_witness :
  (16 <= int_bits_avr /\ DSP.is_BAM8 200 /\ DSP.is_BAM16 0xABCD) /\
  DSP.BAM8toBAM16 int_bits_avr 200 = 200 * 256 /\
  DSP.BAM16toBAM8 0xABCD = 0xABCD / 256 /\
  DSP.BAM16toBAM8 (DSP.BAM8toBAM16 int_bits_avr 200) = 200.
Proof.
  assert (HW : 16 <= int_bits_avr) by (unfold int_bits_avr; lia).
  assert (Hv : DSP.is_BAM8 200) by (unfold DSP.is_BAM8; lia).
  assert (Hw : DSP.is_BAM16 0xABCD) by (unfold DSP.is_BAM16; lia).
  split; [auto|].
  exact (BAM8_BAM16_conversions int_bits_avr HW 200 0xABCD Hv Hw).
Defined.

Lemma BAM16_quadrants_witness :
  (16 <= int_bits_avr /\ DSP.is_BAM16 0x4000) /\
  DSP.BAM16_Quad2 int_bits_avr 0x4000 = true /\
  DSP.BAM16_Quad23 int_bits_avr 0x4000 = true /\
  DSP.BAM16_Quad14 int_bits_avr 0x4000 = false.
Proof.
  assert (HW : 16 <= int_bits_avr) by (unfold int_bits_avr; lia).
  assert (Hx : DSP.is_BAM16 0x4000) by (unfold DSP.is_BAM16; lia).
  split; [auto|].
  destruct (BAM16_quadrants int_bits_avr HW 0x4000 Hx)
    as [[_ [H2 _]] [_ [_ [_ [H14 [H23 _]]]]]].
  split; [apply H2; lia|].
  split; [rewrite H23; reflexivity | rewrite H14; reflexivity].
Defined.

(** * Degrees *)

Section Degrees.
Import DSP.

(** Adding and subtracting BAM16 angles wraps at 2^16 and loses nothing. *)
Lemma BAM16_add_sub (a b : Z) :
  is_BAM16 a -> is_BAM16 b ->
  is_BAM16 (BAM16_add a b) /\ BAM16_sub (BAM16_add a b) b = a.
Proof.
  unfold is_BAM16, BAM16_add, BAM16_sub, uint16, wrap_u.
  change (2 ^ 16) with 65536. intros Ha Hb. zlia.
Qed.

(** With a 32-bit [int] the macro yields the values tabulated in DSP.h. *)
Lemma DEG2BAM16_host :
  DEG2BAM16 int_bits_host 360 = 0x0000 /\
  DEG2BAM16 int_bits_host 0 = 0x0000 /\
  DEG2BAM16 int_bits_host (-90) = 0xC000 /\
  DEG2BAM16 int_bits_host 270 = 0xC000 /\
  DEG2BAM16 int_bits_host (-180) = 0x8000 /\
  DEG2BAM16 int_bits_host 180 = 0x8000.
Proof. repeat split; reflexivity. Qed.

(** C5 on the 8-bit target: with a 16-bit [int] the product
    X * BAM16_45_DEGREES is an [unsigned int] and wraps before the
    division, so 270 and -90 degrees come out as 0x0444 and 180 and -180
    degrees as 0x02D8, not as the 0xC000 and 0x8000 that DSP.h tabulates;
    45 degrees does not even give BAM16_45_DEGREES. *)
Theorem DEG2BAM16_avr_wraps :
  DEG2BAM16 int_bits_avr 270 = 0x0444 /\
  DEG2BAM16 int_bits_avr (-90) = 0x0444 /\
  DEG2BAM16 int_bits_avr 180 = 0x02D8 /\
  DEG2BAM16 int_bits_avr (-180) = 0x02D8 /\
  DEG2BAM16 int_bits_avr 45 = 0x038E /\
  DEG2BAM16 int_bits_avr 270 <> BAM16_270_DEGREES /\
  DEG2BAM16 int_bits_avr 180 <> BAM16_180_DEGREES /\
  DEG2BAM16 int_bits_avr 45 <> BAM16_45_DEGREES.
Proof. repeat split; try reflexivity; discriminate. Qed.

End Degrees.

(** * The sample buffer *)

Section SampleBufferFacts.
Import Samples.

Ltac unwrap :=
  unfold SampleBuffer_size, SampleBuffer_free, SampleBuffer_full,
    SampleBuffer_push, SampleBuffer_pop, c_not in *;
  cbn [buff in_ out fst snd] in *;
  unfold uint8, wrap_u, Z.lnot in *;
  change (2 ^ 8) with 256 in *.

Lemma size_range (sb : SampleBuffer) : 0 <= SampleBuffer_size sb <= 255.
Proof. unwrap. zlia. Qed.

Lemma size_plus_free (sb : SampleBuffer) :
  SampleBuffer_size sb + SampleBuffer_free sb = 255.
Proof. unwrap. zlia. Qed.

Lemma full_iff (sb : SampleBuffer) :
  SampleBuffer_full sb = true <-> SampleBuffer_size sb = 255.
Proof.
  pose proof (size_plus_free sb) as E.
  unfold SampleBuffer_full, c_not. fold (SampleBuffer_free sb).
  rewrite Z.eqb_eq. lia.
Qed.

Lemma length_contents (sb : SampleBuffer) :
  length (contents sb) = Z.to_nat (SampleBuffer_size sb).
Proof. unfold contents. now rewrite length_map, length_seq. Qed.

Lemma wf_init (sb : SampleBuffer) : wf sb -> wf (SampleBuffer_init sb).
Proof. unfold wf. cbn. intuition lia. Qed.

Lemma contents_init (sb : SampleBuffer) : contents (SampleBuffer_init sb) = [].
Proof. reflexivity. Qed.

Lemma wf_push (sb : SampleBuffer) (v : Z) : wf sb -> wf (SampleBuffer_push sb v).
Proof.
  unfold wf. unwrap. rewrite length_insert. intuition zlia.
Qed.

Lemma wf_pop (sb : SampleBuffer) : wf sb -> wf (snd (SampleBuffer_pop sb)).
Proof. unfold wf. unwrap. intuition zlia. Qed.

Lemma size_push (sb : SampleBuffer) (v : Z) :
  wf sb -> SampleBuffer_size sb < 255 ->
  SampleBuffer_size (SampleBuffer_push sb v) = SampleBuffer_size sb + 1.
Proof. unfold wf. unwrap. intros. zlia. Qed.

Lemma size_pop (sb : SampleBuffer) :
  wf sb -> 0 < SampleBuffer_size sb ->
  SampleBuffer_size (snd (SampleBuffer_pop sb)) = SampleBuffer_size sb - 1.
Proof. unfold wf. unwrap. intros. zlia. Qed.

(** Popping takes the oldest stored sample. *)
Lemma contents_pop (sb : SampleBuffer) :
  wf sb -> 0 < SampleBuffer_size sb ->
  contents sb
  = fst (SampleBuffer_pop sb) :: contents (snd (SampleBuffer_pop sb)).
Proof.
  intros Hwf Hpos. unfold contents at 1 2.
  rewrite (size_pop sb Hwf Hpos).
  replace (Z.to_nat (SampleBuffer_size sb))
    with (S (Z.to_nat (SampleBuffer_size sb - 1))) by lia.
  cbn [seq map]. f_equal.
  - cbn. do 2 f_equal. destruct Hwf as (_ & _ & Ho). unwrap. zlia.
  - rewrite <- seq_shift, map_map. apply map_ext. intros k.
    cbn. do 2 f_equal. unwrap. zlia.
Qed.

(** Pushing on a buffer that is not full appends the sample. *)
Lemma contents_push (sb : SampleBuffer) (v : Z) :
  wf sb -> SampleBuffer_size sb < 255 ->
  contents (SampleBuffer_push sb v) = contents sb ++ [uint16 v].
Proof.
  intros Hwf Hlt. unfold contents.
  rewrite (size_push sb v Hwf Hlt).
  pose proof (size_range sb) as Hr.
  replace (Z.to_nat (SampleBuffer_size sb + 1))
    with (S (Z.to_nat (SampleBuffer_size sb))) by lia.
  rewrite seq_S, map_app. cbn [map]. 
  destruct Hwf as (Hlen & Hi & Ho). unfold SAMPLE_BUFFER_SIZE in Hlen.
  f_equal.
  - apply map_ext_in. intros k Hk. apply in_seq in Hk. cbn.
    apply list_lookup_total_insert_ne. unwrap. zlia.
  - f_equal. cbn.
    match goal with
    | |- <[?i:=_]> _ !!! ?j = _ => replace j with i by (unwrap; zlia)
    end.
    apply list_lookup_total_insert_eq. lia.
Qed.

(** The loop of [SampleBuffer_popAllOrNothing], run [n] times on a buffer
    that stores at least [n] samples. *)
Lemma pop_loop_spec (n : nat) : forall sb : SampleBuffer,
  wf sb -> Z.of_nat n <= SampleBuffer_size sb ->
  fst (pop_loop n sb) = map int16 (firstn n (contents sb)) /\
  contents (snd (pop_loop n sb)) = skipn n (contents sb) /\
  snd (pop_loop n sb)
  = {| buff := buff sb; in_ := in_ sb; out := uint8 (out sb + Z.of_nat n) |} /\
  wf (snd (pop_loop n sb)) /\
  SampleBuffer_size (snd (pop_loop n sb)) = SampleBuffer_size sb - Z.of_nat n.
Proof.
  induction n as [|n IH]; intros sb Hwf Hn.
  - cbn [pop_loop fst snd firstn skipn map].
    split; [|split; [|split; [|split]]]; try assumption; try lia;
      try reflexivity.
    destruct Hwf as (_ & _ & Ho). destruct sb as [b i o]. unwrap.
    f_equal. zlia.
  - assert (Hpos : 0 < SampleBuffer_size sb) by lia.
    pose proof (wf_pop sb Hwf) as Hwf1.
    pose proof (size_pop sb Hwf Hpos) as Hs1.
    rewrite (contents_pop sb Hwf Hpos).
    cbn [pop_loop].
    destruct (SampleBuffer_pop sb) as [x sb1] eqn:E.
    cbn [fst snd] in *.
    destruct (IH sb1 Hwf1 ltac:(lia)) as (IH1 & IH2 & IH3 & IH4 & IH5).
    destruct (pop_loop n sb1) as [xs sb2].
    cbn [fst snd firstn skipn map] in *.
    split; [|split; [|split; [|split]]]; try assumption; try lia.
    + now rewrite IH1.
    + rewrite IH3. unfold SampleBuffer_pop in E.
      injection E as _ <-. cbn [buff in_ out]. f_equal.
      unwrap. zlia.
Qed.

(** The loop of [SampleBuffer_pushAllOrNothing], run [n] times with room
    for [n] samples. *)
Lemma push_loop_spec (n : nat) : forall (sb : SampleBuffer) (buf : list Z),
  wf sb -> Z.of_nat n <= SampleBuffer_free sb -> (n <= length buf)%nat ->
  contents (push_loop n sb buf)
  = contents sb ++ map uint16 (firstn n buf) /\
  out (push_loop n sb buf) = out sb /\
  wf (push_loop n sb buf) /\
  SampleBuffer_size (push_loop n sb buf) = SampleBuffer_size sb + Z.of_nat n.
Proof.
  induction n as [|n IH]; intros sb buf Hwf Hn Hlen.
  - cbn [push_loop firstn map]. rewrite app_nil_r.
    split; [|split; [|split]]; try assumption; try lia; reflexivity.
  - destruct buf as [|v buf]; [cbn in Hlen; lia|].
    cbn [length] in Hlen.
    pose proof (size_plus_free sb) as Hsf.
    assert (Hlt : SampleBuffer_size sb < 255) by lia.
    pose proof (wf_push sb v Hwf) as Hwf1.
    pose proof (size_push sb v Hwf Hlt) as Hs1.
    pose proof (size_plus_free (SampleBuffer_push sb v)) as Hsf1.
    cbn [push_loop hd tl firstn map].
    destruct (IH (SampleBuffer_push sb v) buf Hwf1 ltac:(lia) ltac:(lia))
      as (IH1 & IH2 & IH3 & IH4).
    split; [|split; [|split]]; try assumption.
    + rewrite IH1, (contents_push sb v Hwf Hlt), <- app_assoc.
      reflexivity.
    + lia.
Qed.

(** A [Q_15] sample survives its stay in a [uint16_t] slot. *)
Lemma int16_uint16 (x : Z) : DSP.is_Q_15 x -> int16 (uint16 x) = x.
Proof.
  unfold DSP.is_Q_15, int16, uint16, wrap_s, wrap_u.
  change (2 ^ (16 - 1)) with 32768. change (2 ^ 15) with 32768.
  change (2 ^ 16) with 65536. intros Hx. zlia.
Qed.

Lemma map_int16_uint16 (l : list Z) :
  Forall DSP.is_Q_15 l -> map int16 (map uint16 l) = l.
Proof.
  induction 1 as [|x l Hx _ IH]; cbn [map]; [reflexivity|].
  now rewrite (int16_uint16 x Hx), IH.
Qed.

Lemma AllOrNothing_pop (sb : SampleBuffer) (count : Z) :
  wf sb -> 0 <= count -> count <= SampleBuffer_size sb ->
  exists sb' : SampleBuffer,
    SampleBuffer_popAllOrNothing sb count
    = (count, map int16 (firstn (Z.to_nat count) (contents sb)), sb') /\
    contents sb' = skipn (Z.to_nat count) (contents sb) /\
    SampleBuffer_size sb' = SampleBuffer_size sb - count /\
    sb' = {| buff := buff sb; in_ := in_ sb; out := uint8 (out sb + count) |} /\
    wf sb'.
Proof.
  intros Hwf H0 Hc. unfold SampleBuffer_popAllOrNothing.
  destruct (Z.ltb_spec (SampleBuffer_size sb) count) as [Hlt|_]; [lia|].
  destruct (pop_loop_spec (Z.to_nat count) sb Hwf ltac:(lia))
    as (E1 & E2 & E3 & E4 & E5).
  destruct (pop_loop (Z.to_nat count) sb) as [xs sb'].
  cbn [fst snd] in *. exists sb'. rewrite E1.
  rewrite Z2Nat.id in E3 by exact H0.
  split; [reflexivity|]. split; [assumption|]. split; [lia|].
  split; assumption.
Qed.

Lemma AllOrNothing_pop_short (sb : SampleBuffer) (count : Z) :
  SampleBuffer_size sb < count ->
  SampleBuffer_popAllOrNothing sb count = (0, [], sb).
Proof.
  intros Hc. unfold SampleBuffer_popAllOrNothing.
  destruct (Z.ltb_spec (SampleBuffer_size sb) count) as [_|Hge];
    [reflexivity|lia].
Qed.

Lemma AllOrNothing_push (sb : SampleBuffer) (buf : list Z) (count : Z) :
  wf sb -> 0 <= count -> count <= Z.of_nat (length buf) ->
  count <= SampleBuffer_free sb ->
  exists sb' : SampleBuffer,
    SampleBuffer_pushAllOrNothing sb buf count = (count, sb') /\
    contents sb' = contents sb ++ map uint16 (firstn (Z.to_nat count) buf) /\
    SampleBuffer_size sb' = SampleBuffer_size sb + count /\
    wf sb'.
Proof.
  intros Hwf H0 Hbuf Hc. unfold SampleBuffer_pushAllOrNothing.
  destruct (Z.ltb_spec (SampleBuffer_free sb) count) as [Hlt|_]; [lia|].
  destruct (push_loop_spec (Z.to_nat count) sb buf Hwf ltac:(lia) ltac:(lia))
    as (E1 & _ & E3 & E4).
  eexists. split; [reflexivity|]. split; [assumption|].
  split; [lia|assumption].
Qed.

Lemma AllOrNothing_push_short (sb : SampleBuffer) (buf : list Z) (count : Z) :
  SampleBuffer_free sb < count ->
  SampleBuffer_pushAllOrNothing sb buf count = (0, sb).
Proof.
  intros Hc. unfold SampleBuffer_pushAllOrNothing.
  destruct (Z.ltb_spec (SampleBuffer_free sb) count) as [_|Hge];
    [reflexivity|lia].
Qed.

(** C2: with [count] non-negative, the pop transfers the [count] oldest
    samples and returns [count] when that many are stored, and otherwise
    returns 0 with nothing written and the buffer as it was; the push of
    [count] samples of the caller's array appends them in order and
    returns [count] when that much space is free, and otherwise returns 0
    with the buffer as it was. *)
Theorem AllOrNothing_transfer (sb : SampleBuffer) (buf : list Z) (count : Z) :
  wf sb -> 0 <= count -> count <= Z.of_nat (length buf) ->
  (count <= SampleBuffer_size sb ->
     exists sb' : SampleBuffer,
       SampleBuffer_popAllOrNothing sb count
       = (count, map int16 (firstn (Z.to_nat count) (contents sb)), sb') /\
       contents sb' = skipn (Z.to_nat count) (contents sb) /\
       SampleBuffer_size sb' = SampleBuffer_size sb - count /\
       sb' = {| buff := buff sb; in_ := in_ sb;
                out := uint8 (out sb + count) |}) /\
  (SampleBuffer_size sb < count ->
     SampleBuffer_popAllOrNothing sb count = (0, [], sb)) /\
  (count <= SampleBuffer_free sb ->
     exists sb' : SampleBuffer,
       SampleBuffer_pushAllOrNothing sb buf count = (count, sb') /\
       contents sb'
       = contents sb ++ map uint16 (firstn (Z.to_nat count) buf) /\
       SampleBuffer_size sb' = SampleBuffer_size sb + count) /\
  (SampleBuffer_free sb < count ->
     SampleBuffer_pushAllOrNothing sb buf count = (0, sb)).
Proof.
  intros Hwf H0 Hbuf.
  split; [|split; [|split]].
  - intros Hc.
    destruct (AllOrNothing_pop sb count Hwf H0 Hc)
      as (sb' & E1 & E2 & E3 & E4 & _).
    now exists sb'.
  - apply AllOrNothing_pop_short.
  - intros Hc.
    destruct (AllOrNothing_push sb buf count Hwf H0 Hbuf Hc)
      as (sb' & E1 & E2 & E3 & _).
    now exists sb'.
  - apply AllOrNothing_push_short.
Qed.

(** C8: used and free slots always add up to SAMPLE_BUFFER_SIZE - 1 = 255,
    before and after each of the five operations. *)
Theorem size_free_invariant (sb : SampleBuffer) (sample count : Z) (buf : list Z) :
  SAMPLE_BUFFER_SIZE - 1 = 255 /\
  SampleBuffer_size sb + SampleBuffer_free sb = SAMPLE_BUFFER_SIZE - 1 /\
  (let sb' := SampleBuffer_init sb in
   SampleBuffer_size sb' + SampleBuffer_free sb' = SAMPLE_BUFFER_SIZE - 1) /\
  (let sb' := SampleBuffer_push sb sample in
   SampleBuffer_size sb' + SampleBuffer_free sb' = SAMPLE_BUFFER_SIZE - 1) /\
  (let sb' := snd (SampleBuffer_pop sb) in
   SampleBuffer_size sb' + SampleBuffer_free sb' = SAMPLE_BUFFER_SIZE - 1) /\
  (let sb' := snd (SampleBuffer_pushAllOrNothing sb buf count) in
   SampleBuffer_size sb' + SampleBuffer_free sb' = SAMPLE_BUFFER_SIZE - 1) /\
  (let sb' := snd (SampleBuffer_popAllOrNothing sb count) in
   SampleBuffer_size sb' + SampleBuffer_free sb' = SAMPLE_BUFFER_SIZE - 1).
Proof.
  change (SAMPLE_BUFFER_SIZE - 1) with 255. cbv zeta.
  repeat split; apply size_plus_free.
Qed.

(** C9: pushing a list of at most 255 Q_15 samples on a freshly
    initialised buffer returns its length, and popping that many returns
    the length and the same list. *)
Theorem push_pop_round_trip (sb : SampleBuffer) (l : list Z) :
  wf sb -> Forall DSP.is_Q_15 l -> (length l <= 255)%nat ->
  exists sb1 sb2 : SampleBuffer,
    SampleBuffer_pushAllOrNothing (SampleBuffer_init sb) l (Z.of_nat (length l))
    = (Z.of_nat (length l), sb1) /\
    SampleBuffer_popAllOrNothing sb1 (Z.of_nat (length l))
    = (Z.of_nat (length l), l, sb2).
Proof.
  intros Hwf Hq Hlen.
  pose proof (wf_init sb Hwf) as Hwf0.
  set (sb0 := SampleBuffer_init sb) in *.
  set (n := Z.of_nat (length l)).
  assert (Hs0 : SampleBuffer_size sb0 = 0) by reflexivity.
  assert (Hf0 : SampleBuffer_free sb0 = 255) by reflexivity.
  destruct (AllOrNothing_push sb0 l n Hwf0 ltac:(lia) ltac:(lia) ltac:(lia))
    as (sb1 & Epush & Ec & Es & Hwf1).
  rewrite firstn_all2 in Ec by lia.
  change (contents sb0) with (@nil Z) in Ec. cbn [app] in Ec.
  destruct (AllOrNothing_pop sb1 n Hwf1 ltac:(lia) ltac:(lia))
    as (sb2 & Epop & _).
  exists sb1, sb2. split; [assumption|].
  rewrite Epop. do 2 f_equal.
  rewrite Ec, firstn_all2 by (rewrite length_map; lia).
  now apply map_int16_uint16.
Qed.

(** C10: of the 256 slots only 255 are usable: the free space never
    exceeds 255, the buffer is full exactly when it stores 255 samples,
    and a push of 256 samples is refused in every state, the freshly
    initialised one included. *)
Theorem usable_capacity (sb : SampleBuffer) (buf : list Z) :
  SAMPLE_BUFFER_SIZE = 256 /\
  SampleBuffer_free sb <= 255 /\
  (SampleBuffer_full sb = true <-> SampleBuffer_size sb = 255) /\
  (SampleBuffer_full sb = true <-> length (contents sb) = 255%nat) /\
  SampleBuffer_pushAllOrNothing sb buf SAMPLE_BUFFER_SIZE = (0, sb) /\
  SampleBuffer_pushAllOrNothing (SampleBuffer_init sb) buf SAMPLE_BUFFER_SIZE
  = (0, SampleBuffer_init sb).
Proof.
  pose proof (size_range sb) as Hr.
  pose proof (size_plus_free sb) as Hsf.
  split; [reflexivity|]. split; [lia|]. split; [apply full_iff|].
  split; [rewrite full_iff, length_contents; lia|].
  split; apply AllOrNothing_push_short;
    pose proof (size_range (SampleBuffer_init sb));
    pose proof (size_plus_free (SampleBuffer_init sb));
    unfold SAMPLE_BUFFER_SIZE; lia.
Qed.

End SampleBufferFacts.

Lemma AllOrNothing_transfer_witness :
  (Samples.wf Samples.sb_three /\ 0 <= 2 /\ 2 <= Z.of_nat (length [7; -8])) /\
  (exists sb' : Samples.SampleBuffer,
     Samples.SampleBuffer_popAllOrNothing Samples.sb_three 2 = (2, [10; 20], sb') /\
     Samples.contents sb' = [30]) /\
  (exists sb' : Samples.SampleBuffer,
     Samples.SampleBuffer_pushAllOrNothing Samples.sb_three [7; -8] 2 = (2, sb') /\
     Samples.contents sb' = [10; 20; 30; 7; 65528]).
Proof.
  assert (Hwf : Samples.wf Samples.sb_three).
  { unfold Samples.wf. split; [reflexivity|]. cbn. lia. }
  assert (H0 : 0 <= 2) by lia.
  assert (Hb : 2 <= Z.of_nat (length [7; -8])) by (cbn; lia).
  split; [auto|].
  destruct (AllOrNothing_transfer Samples.sb_three [7; -8] 2 Hwf H0 Hb)
    as (Hpop & _ & Hpush & _).
  split.
  - destruct Hpop as (sb' & E & Ec & _); [vm_compute; discriminate|].
    exists sb'. split; [exact E | exact Ec].
  - destruct Hpush as (sb' & E & Ec & _); [vm_compute; discriminate|].
    exists sb'. split; [exact E | exact Ec].
Defined.

Lemma push_pop_round_trip_witness :
  (Samples.wf Samples.sb_stale /\
   Forall DSP.is_Q_15 Samples.q15_samples /\
   (length Samples.q15_samples <= 255)%nat) /\
  exists sb1 sb2 : Samples.SampleBuffer,
    Samples.SampleBuffer_pushAllOrNothing
      (Samples.SampleBuffer_init Samples.sb_stale) Samples.q15_samples 4
    = (4, sb1) /\
    Samples.SampleBuffer_popAllOrNothing sb1 4
    = (4, [1; -2; 32767; -32768], sb2).
Proof.
  assert (Hwf : Samples.wf Samples.sb_stale).
  { unfold Samples.wf. split; [reflexivity|]. cbn. lia. }
  assert (Hq : Forall DSP.is_Q_15 Samples.q15_samples).
  { repeat constructor; unfold DSP.is_Q_15; lia. }
  assert (Hl : (length Samples.q15_samples <= 255)%nat) by (cbn; lia).
  split; [auto|].
  exact (push_pop_round_trip Samples.sb_stale Samples.q15_samples Hwf Hq Hl).
Defined.

(** * More on the Q15 product and on saturation *)

Section Q15More.
Import DSP.

Lemma Q15_mult_div (a b : Z) :
  is_Q_15 a -> is_Q_15 b -> Q15_mult a b = a * b / 32768.
Proof.
  unfold is_Q_15. change (2 ^ 15) with 32768. intros Ha Hb.
  unfold Q15_mult, int32.
  rewrite (wrap_s_small 32 a), (wrap_s_small 32 b)
    by (change (2 ^ (32 - 1)) with 2147483648; lia).
  rewrite wrap_s_small by (change (2 ^ (32 - 1)) with 2147483648; nia).
  now rewrite Z.shiftr_div_pow2 by lia.
Qed.

Lemma Q15_product_bounds (a b : Z) :
  is_Q_15 a -> is_Q_15 b ->
  - 32768 * 32767 <= a * b <= 32768 * 32768 /\
  (a * b = 32768 * 32768 -> a = - 32768 /\ b = - 32768).
Proof.
  unfold is_Q_15. change (2 ^ 15) with 32768. intros Ha Hb.
  split; [nia|]. intros E.
  assert (a < 0) by nia.
  assert (b < 0) by nia. nia.
Qed.

Lemma Q15_mult_bounds (a b : Z) :
  is_Q_15 a -> is_Q_15 b ->
  - Q15_ONE <= Q15_mult a b <= Q15_ONE + 1 /\
  (Q15_mult a b = Q15_ONE + 1 <-> a = - 32768 /\ b = - 32768).
Proof.
  intros Ha Hb. rewrite (Q15_mult_div a b Ha Hb).
  destruct (Q15_product_bounds a b Ha Hb) as [Hp Hmax].
  unfold Q15_ONE. split; [zlia|]. split.
  - intros E. apply Hmax. zlia.
  - intros [-> ->]. reflexivity.
Qed.

(** The product of two Q_15 values stays within -32767 .. 32768, and the
    one value that is not a Q_15, 32768, arises only from
    (-32768) * (-32768). *)
Theorem Q15_mult_range (a b : Z) :
  is_Q_15 a -> is_Q_15 b ->
  - Q15_ONE <= Q15_mult a b <= Q15_ONE + 1 /\
  (Q15_mult a b = Q15_ONE + 1 <-> a = - 32768 /\ b = - 32768).
Proof. exact (Q15_mult_bounds a b). Qed.

Lemma Q15_mult_range_witness :
  (is_Q_15 (-32768) /\ is_Q_15 (-32768)) /\
  Q15_mult (-32768) (-32768) = Q15_ONE + 1.
Proof.
  assert (H : is_Q_15 (-32768)) by (unfold is_Q_15; lia).
  split; [auto|].
  apply (Q15_mult_range (-32768) (-32768) H H). split; reflexivity.
Defined.

(** Q15_ONE is not a neutral element: multiplying by it takes one step
    off every positive Q_15 value, keeps zero and the negative values,
    and turns -32768 into -32767; the order of the operands does not
    matter. *)
Theorem Q15_mult_by_ONE (a : Z) :
  is_Q_15 a ->
  Q15_mult Q15_ONE a = Q15_mult a Q15_ONE /\
  Q15_mult a Q15_ONE
  = if 0 <? a then a - 1 else if a =? - 32768 then a + 1 else a.
Proof.
  intros Ha.
  assert (H1 : is_Q_15 Q15_ONE) by (unfold is_Q_15, Q15_ONE; lia).
  rewrite (Q15_mult_div Q15_ONE a H1 Ha), (Q15_mult_div a Q15_ONE Ha H1).
  unfold is_Q_15 in Ha. change (2 ^ 15) with 32768 in Ha.
  unfold Q15_ONE. split; [f_equal; lia|].
  destruct (Z.ltb_spec 0 a); [zlia|].
  destruct (Z.eqb_spec a (-32768)); zlia.
Qed.

Lemma Q15_mult_by_ONE_witness :
  is_Q_15 0x4000 /\
  Q15_mult Q15_ONE 0x4000 = Q15_mult 0x4000 Q15_ONE /\
  Q15_mult 0x4000 Q15_ONE = 0x3FFF.
Proof.
  assert (H : is_Q_15 0x4000) by (unfold is_Q_15; lia).
  split; [exact H|]. exact (Q15_mult_by_ONE 0x4000 H).
Defined.

(** Saturation brings any value into -Q15_ONE .. Q15_ONE and changes no
    value of that range; after a product of two Q_15 values it only
    changes the 32768 of (-32768) * (-32768), which becomes Q15_ONE. *)
Theorem Q15_sat_after_mult (a b x : Z) :
  is_Q_15 a -> is_Q_15 b ->
  - Q15_ONE <= Q15_sat x <= Q15_ONE /\
  (- Q15_ONE <= x <= Q15_ONE -> Q15_sat x = x) /\
  is_Q_15 (Q15_sat (Q15_mult a b)) /\
  Q15_sat (Q15_mult a b)
  = if (a =? - 32768) && (b =? - 32768) then Q15_ONE else Q15_mult a b.
Proof.
  intros Ha Hb.
  assert (Hsat : forall y, - Q15_ONE <= Q15_sat y <= Q15_ONE /\
                           (- Q15_ONE <= y <= Q15_ONE -> Q15_sat y = y)).
  { intros y. unfold Q15_sat, constrain, Q15_ONE.
    repeat match goal with
           | |- context [?u <? ?v] => destruct (Z.ltb_spec u v)
           end; lia. }
  destruct (Hsat x) as [Hr Hid].
  split; [exact Hr|]. split; [exact Hid|].
  destruct (Q15_mult_bounds a b Ha Hb) as [Hm Hmax].
  split.
  - destruct (Hsat (Q15_mult a b)) as [Hr' _].
    unfold is_Q_15, Q15_ONE in *. lia.
  - destruct (Z.eqb_spec a (-32768)) as [->|Hna];
      [destruct (Z.eqb_spec b (-32768)) as [->|Hnb]|]; cbn [andb].
    + reflexivity.
    + apply Hsat. unfold Q15_ONE in *. split; [lia|].
      assert (Q15_mult (-32768) b <> 32767 + 1) by (intros E; apply Hmax in E; lia).
      lia.
    + apply Hsat. unfold Q15_ONE in *. split; [lia|].
      assert (Q15_mult a b <> 32767 + 1) by (intros E; apply Hmax in E; lia).
      lia.
Qed.

Lemma Q15_sat_after_mult_witness :
  (is_Q_15 (-32768) /\ is_Q_15 (-32768)) /\
  Q15_sat (-32768) = - Q15_ONE /\
  Q15_sat (Q15_mult (-32768) (-32768)) = Q15_ONE.
Proof.
  assert (H : is_Q_15 (-32768)) by (unfold is_Q_15; lia).
  split; [auto|].
  destruct (Q15_sat_after_mult (-32768) (-32768) (-32768) H H)
    as (Hr & _ & _ & E).
  split; [|exact E].
  assert (Q15_sat (-32768) <= - Q15_ONE) by (vm_compute; discriminate).
  lia.
Defined.

End Q15More.

(** * More on binary angles *)

Section BAMMore.
Import DSP.

Variable int_bits : Z.
Hypothesis int_bits_ge_16 : 16 <= int_bits.

(** BAM16 -> BAM8 -> BAM16 clears the low byte: the angle is rounded down
    to a multiple of 256 and loses less than 256. *)
Theorem BAM16_BAM8_BAM16 (w : Z) :
  is_BAM16 w ->
  BAM8toBAM16 int_bits (BAM16toBAM8 w) = w - w mod 256 /\
  0 <= w - BAM8toBAM16 int_bits (BAM16toBAM8 w) < 256.
Proof.
  intros Hw.
  rewrite (BAM16toBAM8_div w Hw).
  assert (H8 : is_BAM8 (w / 256)).
  { unfold is_BAM16, is_BAM8 in *. change (2 ^ 16) with 65536 in Hw.
    change (2 ^ 8) with 256. zlia. }
  rewrite (BAM8toBAM16_mul int_bits int_bits_ge_16 _ H8). zlia.
Qed.

Lemma BAM16_add_BAM16 (x d : Z) : is_BAM16 (BAM16_add x d).
Proof.
  unfold is_BAM16, BAM16_add, uint16, wrap_u.
  apply Z.mod_pos_bound. lia.
Qed.

(** Adding a quarter turn moves an angle to the next quadrant, the fourth
    wrapping to the first; adding half a turn swaps the two half planes. *)
Theorem BAM16_quadrant_turn (x : Z) :
  is_BAM16 x ->
  BAM16_Quad2 int_bits (BAM16_add x BAM16_90_DEGREES) = BAM16_Quad1 int_bits x /\
  BAM16_Quad3 int_bits (BAM16_add x BAM16_90_DEGREES) = BAM16_Quad2 int_bits x /\
  BAM16_Quad4 int_bits (BAM16_add x BAM16_90_DEGREES) = BAM16_Quad3 int_bits x /\
  BAM16_Quad1 int_bits (BAM16_add x BAM16_90_DEGREES) = BAM16_Quad4 int_bits x /\
  BAM16_Quad34 int_bits (BAM16_add x BAM16_180_DEGREES) = BAM16_Quad12 int_bits x /\
  BAM16_Quad12 int_bits (BAM16_add x BAM16_180_DEGREES) = BAM16_Quad34 int_bits x.
Proof.
  intros Hx.
  pose proof (BAM16_add_BAM16 x BAM16_90_DEGREES) as Hy.
  unfold BAM16_Quad1, BAM16_Quad2, BAM16_Quad3, BAM16_Quad4, BAM16_Quad34.
  rewrite !(quadrant_mask int_bits int_bits_ge_16 _ Hy).
  rewrite !(quadrant_mask int_bits int_bits_ge_16 _ Hx).
  rewrite !(BAM16_Quad12_testbit int_bits int_bits_ge_16).
  rewrite !testbit_div by lia.
  unfold is_BAM16, BAM16_add, BAM16_90_DEGREES, BAM16_180_DEGREES,
    BAM16_PI_RADIANS, uint16, wrap_u in *.
  change (2 ^ 16) with 65536 in *. change (2 ^ 15) with 32768.
  repeat split;
    repeat match goal with
           | |- context [?u =? ?v] => destruct (Z.eqb_spec u v)
           end; cbn [negb]; try reflexivity; zlia.
Qed.

End BAMMore.

Lemma BAM16_BAM8_BAM16_witness :
  (16 <= int_bits_avr /\ DSP.is_BAM16 0xABCD) /\
  DSP.BAM8toBAM16 int_bits_avr (DSP.BAM16toBAM8 0xABCD) = 0xAB00.
Proof.
  assert (HW : 16 <= int_bits_avr) by (unfold int_bits_avr; lia).
  assert (Hw : DSP.is_BAM16 0xABCD) by (unfold DSP.is_BAM16; lia).
  split; [auto|].
  destruct (BAM16_BAM8_BAM16 int_bits_avr HW 0xABCD Hw) as [E _].
  rewrite E. reflexivity.
Defined.

Lemma BAM16_quadrant_turn_witness :
  (16 <= int_bits_avr /\ DSP.is_BAM16 0xFFFF) /\
  DSP.BAM16_Quad1 int_bits_avr (DSP.BAM16_add 0xFFFF DSP.BAM16_90_DEGREES)
  = DSP.BAM16_Quad4 int_bits_avr 0xFFFF.
Proof.
  assert (HW : 16 <= int_bits_avr) by (unfold int_bits_avr; lia).
  assert (Hx : DSP.is_BAM16 0xFFFF) by (unfold DSP.is_BAM16; lia).
  split; [auto|].
  apply (BAM16_quadrant_turn int_bits_avr HW 0xFFFF Hx).
Defined.

(** * More on the frequency conversion *)

Section FrequencyMore.
Import DSP.

(** Frequencies that differ by the sample rate get the same increment;
    in particular the sample rate itself maps to 0. *)
Theorem FREQUENCY_alias (HZ SAMPLE_RATE : Z) :
  0 <= HZ -> 0 < SAMPLE_RATE -> (HZ + SAMPLE_RATE) * 2 ^ 16 < 2 ^ 32 ->
  FREQUENCY_HZtoBAM16_PER_SAMPLE (HZ + SAMPLE_RATE) SAMPLE_RATE
  = FREQUENCY_HZtoBAM16_PER_SAMPLE HZ SAMPLE_RATE /\
  (HZ = 0 -> FREQUENCY_HZtoBAM16_PER_SAMPLE SAMPLE_RATE SAMPLE_RATE = 0).
Proof.
  intros H0 HS Hfit.
  assert (E : FREQUENCY_HZtoBAM16_PER_SAMPLE (HZ + SAMPLE_RATE) SAMPLE_RATE
              = FREQUENCY_HZtoBAM16_PER_SAMPLE HZ SAMPLE_RATE).
  { unfold FREQUENCY_HZtoBAM16_PER_SAMPLE.
    rewrite !FREQUENCY_shift by lia.
    replace ((HZ + SAMPLE_RATE) * 2 ^ 16)
      with (HZ * 2 ^ 16 + 2 ^ 16 * SAMPLE_RATE) by lia.
    rewrite Z.div_add by lia.
    unfold uint16, wrap_u.
    rewrite <- (Z.mul_1_l (2 ^ 16)) at 2. apply Z.mod_add. lia. }
  split; [exact E|]. intros ->.
  rewrite Z.add_0_l in E. rewrite E. reflexivity.
Qed.

Lemma FREQUENCY_alias_witness :
  (0 <= 300 /\ 0 < 8000 /\ (300 + 8000) * 2 ^ 16 < 2 ^ 32) /\
  FREQUENCY_HZtoBAM16_PER_SAMPLE (300 + 8000) 8000
  = FREQUENCY_HZtoBAM16_PER_SAMPLE 300 8000.
Proof.
  split; [lia|].
  apply (FREQUENCY_alias 300 8000); lia.
Defined.


(** Half the sample rate is half a turn per sample. *)
Theorem FREQUENCY_nyquist (HZ : Z) :
  0 < HZ < 2 ^ 16 ->
  FREQUENCY_HZtoBAM16_PER_SAMPLE HZ (2 * HZ) = BAM16_PI_RADIANS.
Proof.
  intros H. unfold FREQUENCY_HZtoBAM16_PER_SAMPLE.
  rewrite FREQUENCY_shift
    by (change (2 ^ 32) with (2 ^ 16 * 2 ^ 16); nia).
  replace (HZ * 2 ^ 16) with (32768 * (2 * HZ)) by lia.
  rewrite Z.div_mul by lia. reflexivity.
Qed.

Lemma FREQUENCY_nyquist_witness :
  0 < 4000 < 2 ^ 16 /\
  FREQUENCY_HZtoBAM16_PER_SAMPLE 4000 (2 * 4000) = BAM16_PI_RADIANS.
Proof.
  split; [lia|]. apply (FREQUENCY_nyquist 4000). lia.
Defined.

End FrequencyMore.

(** * More on degrees *)

Section DegreesMore.
Import DSP.

Lemma DEG2BAM16_host_quot (X : Z) :
  - 262144 <= X < 262144 ->
  DEG2BAM16 int_bits_host X = uint16 (Z.quot (X * 8192) 45).
Proof.
  intros HX. unfold DEG2BAM16, int_bits_host, sint. cbn [Z.leb Z.compare].
  change ((32 <=? 16)) with false. cbv iota.
  change BAM16_45_DEGREES with 8192.
  rewrite (wrap_s_small 32 X)
    by (change (2 ^ (32 - 1)) with 2147483648; lia).
  rewrite wrap_s_small
    by (change (2 ^ (32 - 1)) with 2147483648; lia).
  reflexivity.
Qed.

(** With a 32-bit [int] every multiple of 45 degrees, negative or beyond
    a turn, is converted exactly: 45 k degrees is k eighths of a turn
    modulo 2^16. *)
Theorem DEG2BAM16_host_multiples_of_45 (k : Z) :
  - 5825 <= k <= 5825 ->
  DEG2BAM16 int_bits_host (45 * k) = uint16 (k * BAM16_45_DEGREES).
Proof.
  intros Hk. rewrite DEG2BAM16_host_quot by lia.
  change BAM16_45_DEGREES with 8192.
  replace (45 * k * 8192) with (k * 8192 * 45) by lia.
  now rewrite Z.quot_mul by lia.
Qed.

Lemma DEG2BAM16_host_multiples_of_45_witness :
  - 5825 <= -6 <= 5825 /\
  DEG2BAM16 int_bits_host (45 * -6) = BAM16_90_DEGREES.
Proof.
  split; [lia|].
  rewrite (DEG2BAM16_host_multiples_of_45 (-6)) by lia. reflexivity.
Defined.

(** With a 32-bit [int] a full turn more gives the same angle for
    non-negative degrees; for negative degrees the quotient is rounded
    towards zero instead of downwards, so -1 and 359 degrees differ. *)
Theorem DEG2BAM16_host_turn (X : Z) :
  0 <= X < 261784 ->
  DEG2BAM16 int_bits_host (X + 360) = DEG2BAM16 int_bits_host X /\
  DEG2BAM16 int_bits_host (-1) <> DEG2BAM16 int_bits_host (-1 + 360).
Proof.
  intros HX. split; [|vm_compute; discriminate].
  rewrite !DEG2BAM16_host_quot by lia.
  rewrite !Z.quot_div_nonneg by lia.
  replace ((X + 360) * 8192) with (X * 8192 + 65536 * 45) by lia.
  rewrite Z.div_add by lia.
  unfold uint16, wrap_u. change (2 ^ 16) with 65536. zlia.
Qed.

Lemma DEG2BAM16_host_turn_witness :
  0 <= 30 < 261784 /\
  DEG2BAM16 int_bits_host (30 + 360) = DEG2BAM16 int_bits_host 30.
Proof.
  split; [lia|]. apply (DEG2BAM16_host_turn 30). lia.
Defined.

(** With a 16-bit [int] the macro only sees the degrees modulo 8: its
    value is (X mod 8) * 8192 / 45, at most 1274, for every [X]. *)
Theorem DEG2BAM16_avr_mod_8 (X : Z) :
  DEG2BAM16 int_bits_avr X = (X mod 8) * 8192 / 45 /\
  DEG2BAM16 int_bits_avr X <= 1274 /\
  DEG2BAM16 int_bits_avr (X + 8) = DEG2BAM16 int_bits_avr X.
Proof.
  assert (E : forall Y, DEG2BAM16 int_bits_avr Y = (Y mod 8) * 8192 / 45).
  { intros Y. unfold DEG2BAM16, int_bits_avr, uint, uint16, wrap_u.
    change (16 <=? 16) with true. cbv iota.
    change BAM16_45_DEGREES with 8192. change (2 ^ 16) with 65536.
    change (8192 mod 65536) with 8192. change (45 mod 65536) with 45.
    zlia. }
  rewrite !E. split; [reflexivity|]. split; zlia.
Qed.

End DegreesMore.

(** * More on the sample buffer *)

Section SampleBufferMore.
Import Samples.

Ltac unwrap_sb :=
  unfold SampleBuffer_size, SampleBuffer_free, SampleBuffer_full,
    SampleBuffer_empty, SampleBuffer_push, SampleBuffer_pop, c_not in *;
  cbn [buff in_ out fst snd] in *;
  unfold uint8, wrap_u, Z.lnot in *;
  change (2 ^ 8) with 256 in *.

Lemma contents_nil_iff (sb : SampleBuffer) :
  contents sb = [] <-> SampleBuffer_size sb = 0.
Proof.
  pose proof (size_range sb) as Hr.
  pose proof (length_contents sb) as Hl.
  split; intros E.
  - rewrite E in Hl. cbn in Hl. lia.
  - apply length_zero_iff_nil. lia.
Qed.

Lemma empty_iff (sb : SampleBuffer) :
  wf sb -> (SampleBuffer_empty sb = true <-> SampleBuffer_size sb = 0).
Proof.
  intros (_ & Hi & Ho). unwrap_sb. rewrite Z.eqb_eq. zlia.
Qed.

(** On a well-formed buffer [SampleBuffer_empty] holds exactly when no
    sample is stored, and an empty buffer is never full. *)
Theorem SampleBuffer_empty_spec (sb : SampleBuffer) :
  wf sb ->
  (SampleBuffer_empty sb = true <-> SampleBuffer_size sb = 0) /\
  (SampleBuffer_empty sb = true <-> contents sb = []) /\
  (SampleBuffer_empty sb = true -> SampleBuffer_full sb = false) /\
  SampleBuffer_empty (SampleBuffer_init sb) = true.
Proof.
  intros Hwf. pose proof (empty_iff sb Hwf) as He.
  split; [exact He|]. split; [now rewrite contents_nil_iff|].
  split; [|reflexivity].
  intros E. apply He in E.
  destruct (SampleBuffer_full sb) eqn:F; [|reflexivity].
  apply full_iff in F. lia.
Qed.

(** [SampleBuffer_push] does not look at the fill level: on a full buffer
    it makes [in] catch up with [out], so the buffer reads as empty and
    the 255 stored samples are gone. *)
Theorem SampleBuffer_push_on_full (sb : SampleBuffer) (sample : Z) :
  wf sb -> SampleBuffer_full sb = true ->
  SampleBuffer_empty (SampleBuffer_push sb sample) = true /\
  SampleBuffer_size (SampleBuffer_push sb sample) = 0 /\
  contents (SampleBuffer_push sb sample) = [].
Proof.
  intros Hwf Hfull.
  pose proof (wf_push sb sample Hwf) as Hwf'.
  assert (Hs : SampleBuffer_size (SampleBuffer_push sb sample) = 0).
  { apply full_iff in Hfull. destruct Hwf as (_ & Hi & Ho).
    unwrap_sb. zlia. }
  split; [now apply empty_iff|]. split; [exact Hs|].
  now apply contents_nil_iff.
Qed.

(** [SampleBuffer_pop] does not look at the fill level either: on an
    empty buffer it hands out the stale slot at [out] and leaves a buffer
    that reads as full, with 255 samples to pop. *)
Theorem SampleBuffer_pop_on_empty (sb : SampleBuffer) :
  wf sb -> SampleBuffer_empty sb = true ->
  fst (SampleBuffer_pop sb) = buff sb !!! Z.to_nat (in_ sb) /\
  SampleBuffer_full (snd (SampleBuffer_pop sb)) = true /\
  SampleBuffer_size (snd (SampleBuffer_pop sb)) = 255 /\
  length (contents (snd (SampleBuffer_pop sb))) = 255%nat.
Proof.
  intros Hwf He.
  assert (Hs : SampleBuffer_size (snd (SampleBuffer_pop sb)) = 255).
  { destruct Hwf as (_ & Hi & Ho). unwrap_sb.
    apply Z.eqb_eq in He. zlia. }
  split.
  - unfold SampleBuffer_empty in He. apply Z.eqb_eq in He.
    cbn. now rewrite He.
  - split; [now apply full_iff|]. split; [exact Hs|].
    rewrite length_contents, Hs. reflexivity.
Qed.

(** On a buffer that is not empty a push and a pop do not disturb each
    other: either order pops the same sample and leaves the same state. *)
Theorem SampleBuffer_push_pop_commute (sb : SampleBuffer) (sample : Z) :
  wf sb -> SampleBuffer_empty sb = false ->
  SampleBuffer_pop (SampleBuffer_push sb sample)
  = (fst (SampleBuffer_pop sb),
     SampleBuffer_push (snd (SampleBuffer_pop sb)) sample).
Proof.
  intros (_ & Hi & Ho) He.
  unfold SampleBuffer_empty in He. apply Z.eqb_neq in He.
  unfold SampleBuffer_pop, SampleBuffer_push. cbn [buff in_ out fst snd].
  f_equal. apply list_lookup_total_insert_ne. lia.
Qed.

(** A negative count passes both guards and runs neither loop: the
    functions return the negative count itself and transfer nothing. *)
Theorem AllOrNothing_negative_count (sb : SampleBuffer) (buf : list Z)
  (count : Z) :
  count < 0 ->
  SampleBuffer_popAllOrNothing sb count = (count, [], sb) /\
  SampleBuffer_pushAllOrNothing sb buf count = (count, sb).
Proof.
  intros Hc.
  pose proof (size_range sb) as Hr.
  pose proof (size_plus_free sb) as Hsf.
  unfold SampleBuffer_popAllOrNothing, SampleBuffer_pushAllOrNothing.
  destruct (Z.ltb_spec (SampleBuffer_size sb) count); [lia|].
  destruct (Z.ltb_spec (SampleBuffer_free sb) count); [lia|].
  replace (Z.to_nat count) with 0%nat by lia. split; reflexivity.
Qed.

End SampleBufferMore.

(** * Transfers in sequence *)

Section SampleBufferCompose.
Import Samples.

Lemma push_loop_app (l1 : list Z) : forall (sb : SampleBuffer) (n : nat) (l2 : list Z),
  push_loop (length l1 + n) sb (l1 ++ l2)
  = push_loop n (push_loop (length l1) sb l1) l2.
Proof.
  induction l1 as [|v l1 IH]; intros sb n l2; [reflexivity|].
  cbn [length Nat.add app push_loop hd tl]. apply IH.
Qed.

Lemma pop_loop_app (n1 : nat) : forall (sb : SampleBuffer) (n2 : nat),
  pop_loop (n1 + n2) sb
  = (fst (pop_loop n1 sb) ++ fst (pop_loop n2 (snd (pop_loop n1 sb))),
     snd (pop_loop n2 (snd (pop_loop n1 sb)))).
Proof.
  induction n1 as [|n1 IH]; intros sb n2.
  - cbn [Nat.add pop_loop fst snd app]. now destruct (pop_loop n2 sb).
  - cbn [Nat.add pop_loop].
    destruct (SampleBuffer_pop sb) as [x sb1].
    rewrite (IH sb1 n2).
    destruct (pop_loop n1 sb1) as [xs sb2]. reflexivity.
Qed.

(** Two pushes in a row that fit together are one push of the two arrays
    joined. *)
Theorem pushAllOrNothing_twice (sb : SampleBuffer) (l1 l2 : list Z) :
  wf sb ->
  Z.of_nat (length l1) + Z.of_nat (length l2) <= SampleBuffer_free sb ->
  exists sb1 sb2 : SampleBuffer,
    SampleBuffer_pushAllOrNothing sb l1 (Z.of_nat (length l1))
    = (Z.of_nat (length l1), sb1) /\
    SampleBuffer_pushAllOrNothing sb1 l2 (Z.of_nat (length l2))
    = (Z.of_nat (length l2), sb2) /\
    SampleBuffer_pushAllOrNothing sb (l1 ++ l2)
      (Z.of_nat (length l1) + Z.of_nat (length l2))
    = (Z.of_nat (length l1) + Z.of_nat (length l2), sb2).
Proof.
  intros Hwf Hfit.
  pose proof (size_plus_free sb) as Hsf.
  destruct (AllOrNothing_push sb l1 (Z.of_nat (length l1)) Hwf
              ltac:(lia) ltac:(lia) ltac:(lia)) as (sb1 & E1 & _ & Hs1 & Hwf1).
  pose proof (size_plus_free sb1) as Hsf1.
  destruct (AllOrNothing_push sb1 l2 (Z.of_nat (length l2)) Hwf1
              ltac:(lia) ltac:(lia) ltac:(lia)) as (sb2 & E2 & _).
  exists sb1, sb2. split; [exact E1|]. split; [exact E2|].
  unfold SampleBuffer_pushAllOrNothing in *.
  destruct (Z.ltb_spec (SampleBuffer_free sb) (Z.of_nat (length l1))); [lia|].
  destruct (Z.ltb_spec (SampleBuffer_free sb1) (Z.of_nat (length l2))); [lia|].
  destruct (Z.ltb_spec (SampleBuffer_free sb)
              (Z.of_nat (length l1) + Z.of_nat (length l2))); [lia|].
  injection E1 as <-. injection E2 as <-. f_equal.
  rewrite !Nat2Z.id.
  replace (Z.to_nat (Z.of_nat (length l1) + Z.of_nat (length l2)))
    with (length l1 + length l2)%nat by lia.
  apply push_loop_app.
Qed.

Lemma pushAllOrNothing_twice_witness :
  (wf sb_three /\
   Z.of_nat (length [7; 8]) + Z.of_nat (length [9])
   <= SampleBuffer_free sb_three) /\
  exists sb2 : SampleBuffer,
    SampleBuffer_pushAllOrNothing sb_three [7; 8; 9] 3 = (3, sb2) /\
    contents sb2 = [10; 20; 30; 7; 8; 9].
Proof.
  assert (Hwf : wf sb_three).
  { unfold wf. split; [reflexivity|]. cbn. lia. }
  assert (Hfit : Z.of_nat (length [7; 8]) + Z.of_nat (length [9])
                 <= SampleBuffer_free sb_three)
    by (vm_compute; discriminate).
  split; [auto|].
  destruct (pushAllOrNothing_twice sb_three [7; 8] [9] Hwf Hfit)
    as (sb1 & sb2 & _ & _ & E).
  exists sb2. split; [exact E|].
  injection E as <-. reflexivity.
Defined.

(** Two pops in a row that the buffer can serve are one pop of the total,
    which writes the two runs one after the other. *)
Theorem popAllOrNothing_twice (sb : SampleBuffer) (n1 n2 : Z) :
  wf sb -> 0 <= n1 -> 0 <= n2 -> n1 + n2 <= SampleBuffer_size sb ->
  exists (xs1 xs2 : list Z) (sb1 sb2 : SampleBuffer),
    SampleBuffer_popAllOrNothing sb n1 = (n1, xs1, sb1) /\
    SampleBuffer_popAllOrNothing sb1 n2 = (n2, xs2, sb2) /\
    SampleBuffer_popAllOrNothing sb (n1 + n2) = (n1 + n2, xs1 ++ xs2, sb2).
Proof.
  intros Hwf H1 H2 Hfit.
  destruct (AllOrNothing_pop sb n1 Hwf H1 ltac:(lia))
    as (sb1 & E1 & _ & Hs1 & _ & Hwf1).
  destruct (AllOrNothing_pop sb1 n2 Hwf1 H2 ltac:(lia)) as (sb2 & E2 & _).
  eexists _, _, sb1, sb2. split; [exact E1|]. split; [exact E2|].
  unfold SampleBuffer_popAllOrNothing in *.
  destruct (Z.ltb_spec (SampleBuffer_size sb) n1); [lia|].
  destruct (Z.ltb_spec (SampleBuffer_size sb1) n2); [lia|].
  destruct (Z.ltb_spec (SampleBuffer_size sb) (n1 + n2)); [lia|].
  rewrite Z2Nat.inj_add by lia.
  rewrite (pop_loop_app (Z.to_nat n1) sb (Z.to_nat n2)).
  destruct (pop_loop (Z.to_nat n1) sb) as [ys1 sb1'].
  injection E1 as E1 <-. cbn [fst snd].
  destruct (pop_loop (Z.to_nat n2) sb1') as [ys2 sb2'].
  injection E2 as E2 <-. cbn [fst snd].
  now rewrite E1, E2.
Qed.

Lemma popAllOrNothing_twice_witness :
  (wf sb_three /\ 0 <= 1 /\ 0 <= 2 /\ 1 + 2 <= SampleBuffer_size sb_three) /\
  exists sb2 : SampleBuffer,
    SampleBuffer_popAllOrNothing sb_three (1 + 2) = (1 + 2, [10; 20; 30], sb2).
Proof.
  assert (Hwf : wf sb_three).
  { unfold wf. split; [reflexivity|]. cbn. lia. }
  assert (Hfit : 1 + 2 <= SampleBuffer_size sb_three)
    by (vm_compute; discriminate).
  split; [split; [exact Hwf|]; split; [lia|]; split; [lia|exact Hfit]|].
  destruct (popAllOrNothing_twice sb_three 1 2 Hwf ltac:(lia) ltac:(lia) Hfit)
    as (xs1 & xs2 & sb1 & sb2 & E1 & E2 & E).
  exists sb2. rewrite E. 
  injection E1 as <- <-. injection E2 as <- _. reflexivity.
Defined.

(** First in, first out across what is already stored: after a push that
    fits, popping everything returns the samples stored before, then the
    pushed ones, and leaves the buffer empty. *)
Theorem push_then_pop_all (sb : SampleBuffer) (l : list Z) :
  wf sb -> Forall DSP.is_Q_15 l ->
  Z.of_nat (length l) <= SampleBuffer_free sb ->
  exists sb1 sb2 : SampleBuffer,
    SampleBuffer_pushAllOrNothing sb l (Z.of_nat (length l))
    = (Z.of_nat (length l), sb1) /\
    SampleBuffer_popAllOrNothing sb1 (SampleBuffer_size sb + Z.of_nat (length l))
    = (SampleBuffer_size sb + Z.of_nat (length l),
       map int16 (contents sb) ++ l, sb2) /\
    SampleBuffer_empty sb2 = true.
Proof.
  intros Hwf Hq Hfit.
  pose proof (size_range sb) as Hr.
  destruct (AllOrNothing_push sb l (Z.of_nat (length l)) Hwf
              ltac:(lia) ltac:(lia) Hfit) as (sb1 & E1 & Ec & Hs1 & Hwf1).
  destruct (AllOrNothing_pop sb1 (SampleBuffer_size sb + Z.of_nat (length l))
              Hwf1 ltac:(lia) ltac:(lia)) as (sb2 & E2 & _ & Hs2 & _ & Hwf2).
  exists sb1, sb2. split; [exact E1|]. split.
  - rewrite E2. do 2 f_equal.
    rewrite firstn_all2 by (rewrite length_contents; lia).
    rewrite Ec, firstn_all2 by lia.
    now rewrite map_app, map_int16_uint16.
  - apply (empty_iff sb2 Hwf2). lia.
Qed.

Lemma push_then_pop_all_witness :
  (wf sb_three /\ Forall DSP.is_Q_15 q15_samples /\
   Z.of_nat (length q15_samples) <= SampleBuffer_free sb_three) /\
  exists sb1 sb2 : SampleBuffer,
    SampleBuffer_pushAllOrNothing sb_three q15_samples 4 = (4, sb1) /\
    SampleBuffer_popAllOrNothing sb1 7
    = (7, [10; 20; 30; 1; -2; 32767; -32768], sb2).
Proof.
  assert (Hwf : wf sb_three).
  { unfold wf. split; [reflexivity|]. cbn. lia. }
  assert (Hq : Forall DSP.is_Q_15 q15_samples).
  { repeat constructor; unfold DSP.is_Q_15; lia. }
  assert (Hfit : Z.of_nat (length q15_samples) <= SampleBuffer_free sb_three)
    by (vm_compute; discriminate).
  split; [auto|].
  destruct (push_then_pop_all sb_three q15_samples Hwf Hq Hfit)
    as (sb1 & sb2 & E1 & E2 & _).
  exists sb1, sb2. split; [exact E1 | exact E2].
Defined.

End SampleBufferCompose.

(** Examples of the edge behaviour on concrete buffers. *)
Lemma SampleBuffer_empty_spec_witness :
  Samples.wf Samples.sb_three /\
  (Samples.SampleBuffer_empty Samples.sb_three = true <->
   Samples.contents Samples.sb_three = []) /\
  Samples.SampleBuffer_empty (Samples.SampleBuffer_init Samples.sb_three) = true.
Proof.
  assert (Hwf : Samples.wf Samples.sb_three).
  { unfold Samples.wf. split; [reflexivity|]. cbn. lia. }
  split; [exact Hwf|].
  destruct (SampleBuffer_empty_spec Samples.sb_three Hwf) as (_ & Hc & _ & Hi).
  split; [exact Hc | exact Hi].
Defined.

Lemma SampleBuffer_push_on_full_witness :
  (Samples.wf Samples.sb_full /\
   Samples.SampleBuffer_full Samples.sb_full = true) /\
  length (Samples.contents Samples.sb_full) = 255%nat /\
  Samples.contents (Samples.SampleBuffer_push Samples.sb_full 1) = [].
Proof.
  assert (Hwf : Samples.wf Samples.sb_full).
  { unfold Samples.wf. split; [reflexivity|]. cbn. lia. }
  assert (Hf : Samples.SampleBuffer_full Samples.sb_full = true) by reflexivity.
  split; [auto|]. split; [reflexivity|].
  apply (SampleBuffer_push_on_full Samples.sb_full 1 Hwf Hf).
Defined.

Lemma SampleBuffer_pop_on_empty_witness :
  (Samples.wf (Samples.SampleBuffer_init Samples.sb_three) /\
   Samples.SampleBuffer_empty (Samples.SampleBuffer_init Samples.sb_three) = true) /\
  fst (Samples.SampleBuffer_pop (Samples.SampleBuffer_init Samples.sb_three)) = 10 /\
  Samples.SampleBuffer_full
    (snd (Samples.SampleBuffer_pop (Samples.SampleBuffer_init Samples.sb_three)))
  = true.
Proof.
  assert (Hwf : Samples.wf (Samples.SampleBuffer_init Samples.sb_three)).
  { unfold Samples.wf. split; [reflexivity|]. cbn. lia. }
  assert (He : Samples.SampleBuffer_empty
                 (Samples.SampleBuffer_init Samples.sb_three) = true)
    by reflexivity.
  split; [auto|].
  destruct (SampleBuffer_pop_on_empty _ Hwf He) as (E1 & E2 & _).
  split; [rewrite E1; reflexivity | exact E2].
Defined.

Lemma SampleBuffer_push_pop_commute_witness :
  (Samples.wf Samples.sb_three /\
   Samples.SampleBuffer_empty Samples.sb_three = false) /\
  fst (Samples.SampleBuffer_pop (Samples.SampleBuffer_push Samples.sb_three 40))
  = 10.
Proof.
  assert (Hwf : Samples.wf Samples.sb_three).
  { unfold Samples.wf. split; [reflexivity|]. cbn. lia. }
  assert (He : Samples.SampleBuffer_empty Samples.sb_three = false)
    by reflexivity.
  split; [auto|].
  rewrite (SampleBuffer_push_pop_commute Samples.sb_three 40 Hwf He).
  reflexivity.
Defined.

Lemma AllOrNothing_negative_count_witness :
  -1 < 0 /\
  Samples.SampleBuffer_popAllOrNothing Samples.sb_three (-1)
  = (-1, [], Samples.sb_three) /\
  Samples.SampleBuffer_pushAllOrNothing Samples.sb_three [7] (-1)
  = (-1, Samples.sb_three).
Proof.
  split; [lia|].
  apply (AllOrNothing_negative_count Samples.sb_three [7] (-1)). lia.
Defined.

(** * The ADC stream *)

Section ADCFacts.
Import ADC.

Lemma pow2_15_le (W : Z) : 16 <= W -> 2 ^ 15 <= 2 ^ (W - 1).
Proof. intros HW. apply Z.pow_le_mono_r; lia. Qed.

(** The sample is the 10-bit reading re-centred on 512 and scaled by 16:
    it spans -8192 .. 8176, a quarter of the Q_15 range, whatever the
    width of [int]. *)
Theorem ADC_readCurrentSample_value (int_bits adc : Z) :
  16 <= int_bits -> 0 <= adc < 1024 ->
  ADC_readCurrentSample int_bits adc = 16 * (adc - 512) /\
  - 8192 <= ADC_readCurrentSample int_bits adc <= 8176.
Proof.
  intros HW Hadc.
  assert (E : ADC_readCurrentSample int_bits adc = 16 * (adc - 512)).
  { unfold ADC_readCurrentSample.
    destruct (Z.leb_spec int_bits 16) as [Hle|Hgt].
    - assert (int_bits = 16) as -> by lia.
      unfold DSP.uint, int16, wrap_s, wrap_u.
      rewrite Z.shiftl_mul_pow2 by lia.
      change (2 ^ (16 - 1)) with 32768. change (2 ^ 16) with 65536.
      change (2 ^ 4) with 16. zlia.
    - pose proof (pow2_15_le int_bits HW) as Hp.
      change (2 ^ 15) with 32768 in Hp.
      unfold DSP.sint.
      rewrite (wrap_s_small int_bits (adc - 512)) by lia.
      rewrite Z.shiftl_mul_pow2 by lia. change (2 ^ 4) with 16.
      rewrite (wrap_s_small int_bits) by lia.
      unfold int16.
      rewrite wrap_s_small by (change (2 ^ (16 - 1)) with 32768; lia).
      lia. }
  rewrite E. split; [reflexivity | lia].
Qed.

Lemma ADC_readCurrentSample_value_witness :
  (16 <= int_bits_avr /\ 0 <= 0 < 1024) /\
  ADC_readCurrentSample int_bits_avr 0 = - 8192.
Proof.
  assert (HW : 16 <= int_bits_avr) by (unfold int_bits_avr; lia).
  split; [split; [exact HW | lia]|].
  destruct (ADC_readCurrentSample_value int_bits_avr 0 HW ltac:(lia)) as [E _].
  rewrite E. reflexivity.
Defined.

Lemma ticks_of_mod (int_bits t : Z) :
  16 <= int_bits -> ticks_of int_bits t = (2 * t - 1) mod 65536.
Proof.
  intros HW. unfold ticks_of, DSP.sint.
  rewrite uint16_wrap_s by exact HW.
  unfold uint16 at 1. unfold wrap_u at 1.
  rewrite <- Zminus_mod_idemp_l.
  fold (wrap_u 16 (wrap_s int_bits (Z.shiftl t 1))). fold uint16.
  rewrite uint16_wrap_s by exact HW.
  unfold uint16, wrap_u. rewrite Zminus_mod_idemp_l.
  rewrite Z.shiftl_mul_pow2 by lia. change (2 ^ 16) with 65536.
  f_equal. lia.
Qed.

(** The two compare registers of timer 1 get twice the sample time less
    one, so that the timer period of OCR1A + 1 half-microsecond ticks is
    the requested sample time; the counter starts from 0, and a sample
    time of 0 asks for the longest period instead of the shortest. *)
Theorem ADC_StreamSetup_period (io : IoDefs) (int_bits pin t : Z) :
  16 <= int_bits -> 1 <= t <= 32768 ->
  OCR1A (ADC_StreamSetup io int_bits pin t) + 1 = 2 * t /\
  OCR1B (ADC_StreamSetup io int_bits pin t)
  = OCR1A (ADC_StreamSetup io int_bits pin t) /\
  TCNT1 (ADC_StreamSetup io int_bits pin t) = 0 /\
  OCR1A (ADC_StreamSetup io int_bits pin 0) = 65535.
Proof.
  intros HW Ht. cbn [ADC_StreamSetup OCR1A OCR1B TCNT1].
  rewrite !ticks_of_mod by exact HW.
  split; [zlia|]. split; [reflexivity|]. split; reflexivity.
Qed.

Lemma ADC_StreamSetup_period_witness :
  (16 <= int_bits_avr /\ 1 <= PERIOD_US_8KHZ <= 32768) /\
  OCR1A (ADC_StreamSetup atmega328p int_bits_avr 14 PERIOD_US_8KHZ) + 1
  = 2 * PERIOD_US_8KHZ.
Proof.
  assert (HW : 16 <= int_bits_avr) by (unfold int_bits_avr; lia).
  assert (Ht : 1 <= PERIOD_US_8KHZ <= 32768) by (unfold PERIOD_US_8KHZ; lia).
  split; [auto|].
  apply (ADC_StreamSetup_period atmega328p int_bits_avr 14 PERIOD_US_8KHZ HW Ht).
Defined.

(** The low three bits of a register value. *)
Lemma land_7_lor (a b : Z) :
  Z.land (Z.lor a b) 7 = Z.lor (Z.land a 7) (Z.land b 7).
Proof. apply Z.land_lor_distr_l. Qed.

Lemma land_7_uint8 (x : Z) : Z.land (uint8 x) 7 = Z.land x 7.
Proof.
  change 7 with (Z.ones 3). rewrite !Z.land_ones by lia.
  unfold uint8, wrap_u. change (2 ^ 8) with 256. change (2 ^ 3) with 8.
  zlia.
Qed.

Lemma land_7_uint32 (x : Z) : Z.land (uint32 x) 7 = Z.land x 7.
Proof.
  change 7 with (Z.ones 3). rewrite !Z.land_ones by lia.
  unfold uint32, wrap_u. change (2 ^ 32) with 4294967296.
  change (2 ^ 3) with 8. zlia.
Qed.

Lemma land_7_bit (b : Z) : 3 <= b -> Z.land (bit b) 7 = 0.
Proof.
  intros Hb. unfold bit. rewrite land_7_uint32.
  change 7 with (Z.ones 3). rewrite Z.land_ones by lia.
  rewrite Z.shiftl_1_l.
  replace b with (3 + (b - 3)) by lia.
  rewrite Z.pow_add_r by lia. change (2 ^ 3) with 8.
  rewrite Z.mul_comm. apply Z.mod_mul. lia.
Qed.

Lemma prescaler_select_cases (ticks : Z) :
  (208 < ticks /\ prescaler_select ticks = 7) \/
  (104 < ticks <= 208 /\ prescaler_select ticks = 6) \/
  (52 < ticks <= 104 /\ prescaler_select ticks = 5) \/
  (26 < ticks <= 52 /\ prescaler_select ticks = 4) \/
  (13 < ticks <= 26 /\ prescaler_select ticks = 3) \/
  (7 < ticks <= 13 /\ prescaler_select ticks = 2) \/
  (ticks <= 7 /\ prescaler_select ticks = 1).
Proof.
  unfold prescaler_select.
  repeat match goal with
         | |- context [?u <? ?v] => destruct (Z.ltb_spec u v)
         end; lia.
Qed.

Lemma ADCSRA_low_bits (io : IoDefs) (int_bits pin t : Z) :
  3 <= ADEN io -> 3 <= ADIE io -> 3 <= ADIF io -> 3 <= ADATE io ->
  Z.land (ADCSRA (ADC_StreamSetup io int_bits pin t)) 7
  = prescaler_select (ticks_of int_bits t).
Proof.
  intros H1 H2 H3 H4. cbn [ADC_StreamSetup ADCSRA].
  rewrite land_7_uint8, land_7_lor, land_7_uint8, land_7_lor,
    land_7_uint8, !land_7_lor.
  rewrite !land_7_bit by assumption.
  destruct (prescaler_select_cases (ticks_of int_bits t))
    as [[_ ->]|[[_ ->]|[[_ ->]|[[_ ->]|[[_ ->]|[[_ ->]|[_ ->]]]]]]];
    reflexivity.
Qed.

(** Where the four flag bits of ADCSRA lie above its prescaler field, the
    field holds a value n from 1 to 7, for a division by 2^n, such that
    the 13 ADC clocks of a conversion take less than the timer period
    (13 * 2^n CPU cycles against 8 per timer tick) as soon as the period
    is at least 4 ticks; from 8 ticks on the next larger division would
    not; every sample time from 105 microseconds on, the PERIOD_US_
    constants among them, gets the division by 128. *)
Theorem ADC_StreamSetup_prescaler (io : IoDefs) (int_bits pin t : Z) :
  16 <= int_bits ->
  3 <= ADEN io -> 3 <= ADIE io -> 3 <= ADIF io -> 3 <= ADATE io ->
  let r := ADC_StreamSetup io int_bits pin t in
  let n := Z.land (ADCSRA r) 7 in
  1 <= n <= 7 /\
  (4 <= OCR1A r -> 13 * 2 ^ n < 8 * OCR1A r) /\
  (8 <= OCR1A r -> n < 7 -> 8 * OCR1A r <= 13 * 2 ^ (n + 1)) /\
  (105 <= t <= 32768 -> n = 7).
Proof.
  intros HW H1 H2 H3 H4 r n.
  assert (En : n = prescaler_select (ticks_of int_bits t))
    by (apply ADCSRA_low_bits; assumption).
  assert (Et : OCR1A r = ticks_of int_bits t) by reflexivity.
  rewrite Et, En. clear En Et.
  pose proof (ticks_of_mod int_bits t HW) as Etk.
  destruct (prescaler_select_cases (ticks_of int_bits t))
    as [[Hr ->]|[[Hr ->]|[[Hr ->]|[[Hr ->]|[[Hr ->]|[[Hr ->]|[Hr ->]]]]]]];
    (split; [lia|]); (split; [intros; cbn; lia|]);
    (split; [intros; cbn; lia|]); intros Ht; try reflexivity;
    exfalso; rewrite Etk in Hr; zlia.
Qed.

Lemma ADC_StreamSetup_prescaler_witness :
  (16 <= int_bits_avr /\ 3 <= ADEN atmega328p /\ 3 <= ADIE atmega328p /\
   3 <= ADIF atmega328p /\ 3 <= ADATE atmega328p) /\
  Z.land (ADCSRA (ADC_StreamSetup atmega328p int_bits_avr 14 PERIOD_US_8KHZ)) 7
  = 7.
Proof.
  assert (HW : 16 <= int_bits_avr) by (unfold int_bits_avr; lia).
  assert (H1 : 3 <= ADEN atmega328p) by (cbn; lia).
  assert (H2 : 3 <= ADIE atmega328p) by (cbn; lia).
  assert (H3 : 3 <= ADIF atmega328p) by (cbn; lia).
  assert (H4 : 3 <= ADATE atmega328p) by (cbn; lia).
  split; [auto 6|].
  destruct (ADC_StreamSetup_prescaler atmega328p int_bits_avr 14
              PERIOD_US_8KHZ HW H1 H2 H3 H4) as (_ & _ & _ & E).
  apply E. unfold PERIOD_US_8KHZ. lia.
Defined.

(** An analog input can be named by its pin number, A0 + k, or by its
    channel k below A0: both calls leave the same registers, and where
    REFS0 lies above the channel field the field holds k modulo 8. *)
Theorem ADC_StreamSetup_pin (io : IoDefs) (int_bits k t : Z) :
  16 <= int_bits -> 0 <= k < A0 io -> A0 io + k < 2 ^ 15 ->
  ADC_StreamSetup io int_bits (A0 io + k) t = ADC_StreamSetup io int_bits k t /\
  (3 <= REFS0 io ->
   Z.land (ADMUX (ADC_StreamSetup io int_bits k t)) 7 = k mod 8).
Proof.
  intros HW Hk Hfit.
  pose proof (pow2_15_le int_bits HW) as Hp.
  assert (E1 : channel_of io int_bits (A0 io + k) = k).
  { unfold channel_of.
    destruct (Z.leb_spec (A0 io) (A0 io + k)); [|lia].
    replace (A0 io + k - A0 io) with k by lia.
    apply wrap_s_small; lia. }
  assert (E2 : channel_of io int_bits k = k).
  { unfold channel_of. destruct (Z.leb_spec (A0 io) k); [lia|reflexivity]. }
  split.
  - unfold ADC_StreamSetup. now rewrite E1, E2.
  - intros HR. cbn [ADC_StreamSetup ADMUX]. rewrite E2.
    rewrite land_7_uint8, land_7_lor, land_7_uint32, (land_7_bit _ HR).
    rewrite Z.lor_0_l, <- Z.land_assoc, Z.land_diag.
    change 7 with (Z.ones 3). now rewrite Z.land_ones by lia.
Qed.

Lemma ADC_StreamSetup_pin_witness :
  (16 <= int_bits_avr /\ 0 <= 3 < A0 atmega328p /\
   A0 atmega328p + 3 < 2 ^ 15) /\
  ADC_StreamSetup atmega328p int_bits_avr 17 PERIOD_US_8KHZ
  = ADC_StreamSetup atmega328p int_bits_avr 3 PERIOD_US_8KHZ /\
  Z.land (ADMUX (ADC_StreamSetup atmega328p int_bits_avr 3 PERIOD_US_8KHZ)) 7
  = 3.
Proof.
  assert (HW : 16 <= int_bits_avr) by (unfold int_bits_avr; lia).
  assert (Hk : 0 <= 3 < A0 atmega328p) by (cbn; lia).
  assert (Hf : A0 atmega328p + 3 < 2 ^ 15) by (cbn; lia).
  split; [auto|].
  destruct (ADC_StreamSetup_pin atmega328p int_bits_avr 3 PERIOD_US_8KHZ
              HW Hk Hf) as [E Hc].
  split; [exact E|]. apply Hc. cbn. lia.
Defined.

Lemma testbit_bit (b n : Z) :
  0 <= b -> 0 <= n < 32 -> Z.testbit (bit b) n = (b =? n).
Proof.
  intros Hb Hn. unfold bit, uint32.
  rewrite testbit_wrap_u by lia.
  rewrite Z.shiftl_1_l. now apply Z.pow2_bits_eqb.
Qed.

(** Stopping the stream clears the OCIE1B bit of TIMSK1 and nothing else
    in that register, and zeroes ADCSRA; after a setup both registers
    are 0 while the timer registers keep what the setup wrote. *)
Theorem ADC_StreamStop_clears (io : IoDefs) (int_bits pin t : Z)
  (r : Registers) (n : Z) :
  0 <= OCIE1B io < 8 -> 0 <= n < 8 ->
  Z.testbit (TIMSK1 (ADC_StreamStop io r)) n
  = Z.testbit (TIMSK1 r) n && negb (OCIE1B io =? n) /\
  ADCSRA (ADC_StreamStop io r) = 0 /\
  TIMSK1 (ADC_StreamStop io (ADC_StreamSetup io int_bits pin t)) = 0 /\
  OCR1A (ADC_StreamStop io (ADC_StreamSetup io int_bits pin t))
  = OCR1A (ADC_StreamSetup io int_bits pin t).
Proof.
  intros Hb Hn.
  assert (Hbit : forall (T m : Z), 0 <= m < 8 ->
            Z.testbit (uint8 (Z.land T (uint32 (Z.lnot (bit (OCIE1B io)))))) m
            = Z.testbit T m && negb (OCIE1B io =? m)).
  { intros T m Hm. unfold uint8. rewrite testbit_wrap_u by lia.
    rewrite Z.land_spec. unfold uint32 at 1.
    rewrite testbit_wrap_u by lia.
    rewrite Z.lnot_spec by lia.
    now rewrite testbit_bit by lia. }
  split; [apply Hbit; exact Hn|]. split; [reflexivity|].
  split; [|reflexivity].
  cbn [ADC_StreamStop ADC_StreamSetup TIMSK1].
  apply Z.bits_inj'. intros m Hm. rewrite Z.bits_0.
  destruct (Z.lt_ge_cases m 8) as [Hlt|Hge].
  - rewrite Hbit by lia. unfold uint8. rewrite testbit_wrap_u by lia.
    rewrite testbit_bit by lia.
    now destruct (OCIE1B io =? m).
  - unfold uint8 at 1, wrap_u. now apply Z.mod_pow2_bits_high.
Qed.

Lemma ADC_StreamStop_clears_witness :
  (0 <= OCIE1B atmega328p < 8 /\ 0 <= 2 < 8) /\
  Z.testbit
    (TIMSK1 (ADC_StreamStop atmega328p
               (ADC_StreamSetup atmega328p int_bits_avr 14 PERIOD_US_8KHZ))) 2
  = false /\
  ADCSRA (ADC_StreamStop atmega328p
            (ADC_StreamSetup atmega328p int_bits_avr 14 PERIOD_US_8KHZ)) = 0.
Proof.
  assert (Hb : 0 <= OCIE1B atmega328p < 8) by (cbn; lia).
  assert (Hn : 0 <= 2 < 8) by lia.
  split; [auto|].
  destruct (ADC_StreamStop_clears atmega328p int_bits_avr 14 PERIOD_US_8KHZ
              (ADC_StreamSetup atmega328p int_bits_avr 14 PERIOD_US_8KHZ)
              2 Hb Hn) as (E1 & E2 & _).
  split; [rewrite E1; reflexivity | exact E2].
Defined.

End ADCFacts.
